(** * PCA954x I2C multiplexer / switch driver

    A shallow embedding of [drivers/i2c/muxes/i2c-mux-pca954x.c]: the chip
    catalogue, the channel select / deselect callbacks, the shared interrupt
    handler, the probe (attach) sequence with its cleanup path, and the
    resume hook.

    C integers are [Z]; a value stored in a [u8] object is wrapped with
    [u8].  The kernel services the driver calls (SMBus transfers, the
    i2c-mux core, the irq-domain layer, GPIO, platform data) are
    collaborators: every result they hand back is an input of the model, and
    every effect the driver has on them is recorded in the [machine]. *)

From stdpp Require Import base gmap list strings.
From Stdlib Require Import ZArith Lia.

Open Scope Z_scope.

(** ** Data model *)

Definition PCA954X_MAX_NCHANS : Z := 8.

Definition PCA954X_IRQ_OFFSET : Z := 4.

(** [BIT(nr)] of [linux/bits.h]: [1UL << nr]. *)
Definition BIT (nr : Z) : Z := Z.shiftl 1 nr.

(** The value of a C expression once stored in a [u8] object. *)
Definition u8 (x : Z) : Z := x mod 256.

Inductive pca_type : Type :=
  | pca_9540 | pca_9542 | pca_9543 | pca_9544 | pca_9545 | pca_9546
  | pca_9547 | pca_9548 | pca_9846 | pca_9847 | pca_9848 | pca_9849.

Inductive muxtype : Type :=
  | pca954x_ismux
  | pca954x_isswi.

(** [struct i2c_device_identity]. *)
Record i2c_device_identity : Type := {
  manufacturer_id : Z;
  part_id : Z;
  die_revision : Z
}.

(** [struct chip_desc].  The fields [muxtype] and [id] are prefixed, their
    plain names being taken. *)
Record chip_desc : Type := {
  nchans : Z;
  enable : Z;                      (* used for muxes only *)
  has_irq : Z;
  chip_muxtype : muxtype;
  chip_id : i2c_device_identity
}.

(** [struct pca954x].  [irq] is the linear irq domain the pointer refers to
    (hardware irq number, here the channel, to Linux irq number), [None]
    for a null pointer.  [client] is the environment of the model;
    [irq_mask] and [lock] are never read by the driver. *)
Record pca954x : Type := {
  chip : pca_type;                 (* data->chip == &chips[chip] *)
  last_chan : Z;                   (* last register value *)
  deselect : Z;
  irq : option (gmap Z Z)
}.

(** One transfer on the upstream bus addressed to the mux register. *)
Inductive bus_op : Type :=
  | xfer_write (val : Z)           (* pca954x_reg_write: __i2c_smbus_xfer, unlocked *)
  | write_byte (val : Z)           (* i2c_smbus_write_byte(client, val) *)
  | read_byte.                     (* i2c_smbus_read_byte(client) *)

(** A child adapter registered by [i2c_mux_add_adapter(muxc, force_nr,
    chan_id, class)]. *)
Record mux_adapter : Type := {
  force_nr : Z;
  chan_id : Z;
  adap_class : Z
}.

(** The device instance together with what the driver did to its
    collaborators: the mux core ([muxc]: private data and child adapters),
    the transfers issued on the bus (oldest first), the nested interrupts
    raised (oldest first), whether the reset line was pulsed and whether the
    threaded handler is bound to the physical interrupt line. *)
Record machine : Type := {
  priv : pca954x;                  (* i2c_mux_priv(muxc) *)
  adapter : list mux_adapter;      (* muxc->adapter[0 .. num_adapters) *)
  bus : list bus_op;
  nested : list Z;                 (* handle_nested_irq(child_irq) *)
  reset_pulsed : bool;
  irq_requested : bool
}.

Definition set_priv (d : pca954x) (m : machine) : machine :=
  {| priv := d; adapter := adapter m; bus := bus m; nested := nested m;
     reset_pulsed := reset_pulsed m; irq_requested := irq_requested m |}.

Definition set_adapter (a : list mux_adapter) (m : machine) : machine :=
  {| priv := priv m; adapter := a; bus := bus m; nested := nested m;
     reset_pulsed := reset_pulsed m; irq_requested := irq_requested m |}.

Definition set_bus (b : list bus_op) (m : machine) : machine :=
  {| priv := priv m; adapter := adapter m; bus := b; nested := nested m;
     reset_pulsed := reset_pulsed m; irq_requested := irq_requested m |}.

Definition set_nested (n : list Z) (m : machine) : machine :=
  {| priv := priv m; adapter := adapter m; bus := bus m; nested := n;
     reset_pulsed := reset_pulsed m; irq_requested := irq_requested m |}.

Definition set_reset_pulsed (b : bool) (m : machine) : machine :=
  {| priv := priv m; adapter := adapter m; bus := bus m; nested := nested m;
     reset_pulsed := b; irq_requested := irq_requested m |}.

Definition set_irq_requested (b : bool) (m : machine) : machine :=
  {| priv := priv m; adapter := adapter m; bus := bus m; nested := nested m;
     reset_pulsed := reset_pulsed m; irq_requested := b |}.

Definition set_last_chan (v : Z) (m : machine) : machine :=
  set_priv {| chip := chip (priv m); last_chan := v;
              deselect := deselect (priv m); irq := irq (priv m) |} m.

Definition set_deselect (v : Z) (m : machine) : machine :=
  set_priv {| chip := chip (priv m); last_chan := last_chan (priv m);
              deselect := v; irq := irq (priv m) |} m.

Definition set_irq (d : option (gmap Z Z)) (m : machine) : machine :=
  set_priv {| chip := chip (priv m); last_chan := last_chan (priv m);
              deselect := deselect (priv m); irq := d |} m.

Inductive irqreturn_t : Type :=
  | IRQ_NONE
  | IRQ_HANDLED.

(** [struct pca954x_platform_mode] of [linux/platform_data/pca954x.h];
    [deselect_on_exit] is a one-bit field. *)
Record pca954x_platform_mode : Type := {
  adap_id : Z;
  deselect_on_exit : bool;
  mode_class : Z
}.

(** What [devm_gpiod_get_optional(dev, "reset", GPIOD_OUT_HIGH)] returns:
    an error pointer, a null pointer or a descriptor. *)
Inductive gpio_lookup : Type :=
  | gpio_error (err : Z)
  | gpio_absent
  | gpio_present.

(** The answers the collaborators of [pca954x_probe] give for one client.
    [pdata] is the platform data, its [modes] array with [num_modes] as
    its length. *)
Record platform : Type := {
  smbus_byte_functionality : bool; (* i2c_check_functionality(adap, I2C_FUNC_SMBUS_BYTE) *)
  mux_alloc_ok : bool;             (* i2c_mux_alloc returned non-null *)
  reset_gpio : gpio_lookup;
  of_match_data : option pca_type; (* of_device_get_match_data(dev): null or &chips[t] *)
  driver_data : pca_type;          (* id->driver_data *)
  device_id : Z * i2c_device_identity; (* i2c_get_device_id: return value, identity read *)
  of_idle_disconnect : bool;       (* np && of_property_read_bool(np, "i2c-mux-idle-disconnect") *)
  client_irq : Z;                  (* client->irq *)
  domain_add_ok : bool;            (* irq_domain_add_linear returned non-null *)
  create_mapping : Z -> Z;         (* irq_create_mapping(data->irq, c); 0 on failure *)
  pdata : option (list pca954x_platform_mode);
  add_adapter : list mux_adapter -> mux_adapter -> Z; (* i2c_mux_add_adapter's return value *)
  request_irq : Z                  (* devm_request_threaded_irq's return value *)
}.

(** ** Fixtures

    For the worked instances at the end: the header constants with the
    values Linux gives them, two buses (one that
    acknowledges every transfer and reports the status byte 0xD0, one that
    fails every transfer with [-EIO]), a few device instances and
    platforms. *)

Definition id_none : Z := 0xffff.
Definition id_nxp : Z := 0.
Definition enodev : Z := 19.
Definition enomem : Z := 12.
Definition einval : Z := 22.
Definition eopnotsupp : Z := 95.

Definition bus_ack (_ : list bus_op) (op : bus_op) : Z :=
  match op with
  | read_byte => 0xD0
  | _ => 0
  end.

Definition bus_nak (_ : list bus_op) (_ : bus_op) : Z := -5.

Definition channel_adapter (num : Z) : mux_adapter :=
  {| force_nr := 0; chan_id := num; adap_class := 0 |}.

(** A PCA9545 (four-channel switch with interrupts), every channel set
    to disconnect when idle, channel 3 selected last. *)
Definition sw4 : machine :=
  {| priv := {| chip := pca_9545; last_chan := 8; deselect := 0xF;
                irq := Some (list_to_map [(0, 64); (1, 65); (2, 66); (3, 67)]) |};
     adapter := map channel_adapter [0; 1; 2; 3];
     bus := []; nested := []; reset_pulsed := false; irq_requested := true |}.

(** A PCA9547 (eight-channel mux), no channel disconnecting when idle,
    channel 5 selected last. *)
Definition mux8 : machine :=
  {| priv := {| chip := pca_9547; last_chan := 0xD; deselect := 0; irq := None |};
     adapter := map channel_adapter [0; 1; 2; 3; 4; 5; 6; 7];
     bus := []; nested := []; reset_pulsed := false; irq_requested := false |}.

(** A PCA9846 found through the device tree, the identity read giving
    [ret] and [id]. *)
Definition pca9846_platform (ret : Z) (id : i2c_device_identity) : platform :=
  {| smbus_byte_functionality := true; mux_alloc_ok := true;
     reset_gpio := gpio_present; of_match_data := Some pca_9846;
     driver_data := pca_9540; device_id := (ret, id);
     of_idle_disconnect := true; client_irq := 0; domain_add_ok := true;
     create_mapping := fun c => 64 + c; pdata := None;
     add_adapter := fun _ _ => 0; request_irq := 0 |}.

(** A PCA9548 found through the id table, with platform data for its
    first three channels. *)
Definition pca9548_platform : platform :=
  {| smbus_byte_functionality := true; mux_alloc_ok := true;
     reset_gpio := gpio_absent; of_match_data := None;
     driver_data := pca_9548;
     device_id := (0, {| manufacturer_id := 0; part_id := 0; die_revision := 0 |});
     of_idle_disconnect := false; client_irq := 0; domain_add_ok := true;
     create_mapping := fun c => 64 + c;
     pdata := Some [ {| adap_id := 10; deselect_on_exit := true; mode_class := 0 |};
                     {| adap_id := 11; deselect_on_exit := false; mode_class := 0 |};
                     {| adap_id := 12; deselect_on_exit := true; mode_class := 0 |} ];
     add_adapter := fun _ _ => 0; request_irq := 0 |}.

(** ** Device tables *)

(** [pca954x_id[]]: name and [driver_data]. *)
Definition pca954x_id : list (string * pca_type) :=
  [ ("pca9540", pca_9540); ("pca9542", pca_9542); ("pca9543", pca_9543);
    ("pca9544", pca_9544); ("pca9545", pca_9545); ("pca9546", pca_9546);
    ("pca9547", pca_9547); ("pca9548", pca_9548); ("pca9846", pca_9846);
    ("pca9847", pca_9847); ("pca9848", pca_9848); ("pca9849", pca_9849) ]%string.

(** [pca954x_of_match[]]: compatible and the index [t] of its
    [.data = &chips[t]]. *)
Definition pca954x_of_match : list (string * pca_type) :=
  [ ("nxp,pca9540", pca_9540); ("nxp,pca9542", pca_9542);
    ("nxp,pca9543", pca_9543); ("nxp,pca9544", pca_9544);
    ("nxp,pca9545", pca_9545); ("nxp,pca9546", pca_9546);
    ("nxp,pca9547", pca_9547); ("nxp,pca9548", pca_9548);
    ("nxp,pca9846", pca_9846); ("nxp,pca9847", pca_9847);
    ("nxp,pca9848", pca_9848); ("nxp,pca9849", pca_9849) ]%string.

(** * DP83867 PHY driver

    The interrupt and port-mirroring entry points of
    [drivers/net/phy/dp83867.c] over the MDIO bus as a collaborator. *)

Module Dp83867.

(** The value of a C expression once passed or stored as a [u16]. *)
Definition u16 (x : Z) : Z := x mod 65536.

Definition DP83867_DEVADDR : Z := 0x1f.

Definition MII_DP83867_MICR : Z := 0x12.

(* Extended Registers *)
Definition DP83867_CFG4 : Z := 0x0031.

(* MICR Interrupt bits *)
Definition MII_DP83867_MICR_AN_ERR_INT_EN : Z := BIT 15.
Definition MII_DP83867_MICR_SPEED_CHNG_INT_EN : Z := BIT 14.
Definition MII_DP83867_MICR_DUP_MODE_CHNG_INT_EN : Z := BIT 13.
Definition MII_DP83867_MICR_AUTONEG_COMP_INT_EN : Z := BIT 11.
Definition MII_DP83867_MICR_LINK_STS_CHNG_INT_EN : Z := BIT 10.
Definition MII_DP83867_MICR_SLEEP_MODE_CHNG_INT_EN : Z := BIT 4.

(* CFG4 bits *)
Definition DP83867_CFG4_PORT_MIRROR_EN : Z := BIT 0.

Definition DP83867_PORT_MIRROING_KEEP : Z := 0.
Definition DP83867_PORT_MIRROING_EN : Z := 1.
Definition DP83867_PORT_MIRROING_DIS : Z := 2.

(** [struct dp83867_private]. *)
Record dp83867_private : Type := {
  rx_id_delay : Z;
  tx_id_delay : Z;
  fifo_depth : Z;
  io_impedance : Z;
  port_mirroring : Z;
  rxctrl_strap_quirk : bool;
  clk_output_sel : Z;
  sgmii_ref_clk_en : bool
}.

(** One access of the PHY over MDIO. *)
Inductive mdio_op : Type :=
  | phy_read (regnum : Z)
  | phy_write (regnum val : Z)
  | phy_read_mmd (devad regnum : Z)
  | phy_write_mmd (devad regnum val : Z).

(** What the entry points use of [struct phy_device], and the accesses
    issued so far, oldest first. *)
Record phy_device : Type := {
  interrupts : Z;
  phy_priv : dp83867_private;
  mdio : list mdio_op
}.

Section Phy.

(** [PHY_INTERRUPT_ENABLED] comes from [linux/phy.h]. *)
Variable PHY_INTERRUPT_ENABLED : Z.

(** The MDIO bus and the PHY behind it: the return value of an access,
    given the accesses before it. *)
Variable mdio_bus : list mdio_op -> mdio_op -> Z.

Definition access (op : mdio_op) (phydev : phy_device) : Z * phy_device :=
  (mdio_bus (mdio phydev) op,
   {| interrupts := interrupts phydev; phy_priv := phy_priv phydev;
      mdio := mdio phydev ++ [op] |}).

(** The enable bits [dp83867_config_intr] sets. *)
Definition micr_enable_bits : Z :=
  Z.lor MII_DP83867_MICR_AN_ERR_INT_EN
    (Z.lor MII_DP83867_MICR_SPEED_CHNG_INT_EN
       (Z.lor MII_DP83867_MICR_AUTONEG_COMP_INT_EN
          (Z.lor MII_DP83867_MICR_LINK_STS_CHNG_INT_EN
             (Z.lor MII_DP83867_MICR_DUP_MODE_CHNG_INT_EN
                MII_DP83867_MICR_SLEEP_MODE_CHNG_INT_EN)))).

(** [phy_write] takes its value as a [u16]. *)
Definition dp83867_config_intr (phydev : phy_device) : Z * phy_device :=
  if interrupts phydev =? PHY_INTERRUPT_ENABLED then
    let '(micr_status, phydev1) := access (phy_read MII_DP83867_MICR) phydev in
    if micr_status <? 0 then (micr_status, phydev1)
    else
      let micr_status := Z.lor micr_status micr_enable_bits in
      access (phy_write MII_DP83867_MICR (u16 micr_status)) phydev1
  else
    let micr_status := 0x0 in
    access (phy_write MII_DP83867_MICR (u16 micr_status)) phydev.

(** [val] is a [u16]: the result of the read is truncated on assignment,
    an error code included, and the result of the write is dropped. *)
Definition dp83867_config_port_mirroring (phydev : phy_device)
  : Z * phy_device :=
  let '(r, phydev1) := access (phy_read_mmd DP83867_DEVADDR DP83867_CFG4) phydev in
  let val := u16 r in
  let val :=
    if port_mirroring (phy_priv phydev) =? DP83867_PORT_MIRROING_EN
    then u16 (Z.lor val DP83867_CFG4_PORT_MIRROR_EN)
    else u16 (Z.land val (Z.lnot DP83867_CFG4_PORT_MIRROR_EN)) in
  let '(_, phydev2) :=
    access (phy_write_mmd DP83867_DEVADDR DP83867_CFG4 val) phydev1 in
  (0, phydev2).

End Phy.

End Dp83867.

(** A PHY that answers every read with 0x1234 and acknowledges every
    write, and one whose every access fails with [-EIO]. *)
Definition mdio_ack (_ : list Dp83867.mdio_op) (op : Dp83867.mdio_op) : Z :=
  match op with
  | Dp83867.phy_read _ | Dp83867.phy_read_mmd _ _ => 0x1234
  | _ => 0
  end.

Definition mdio_nak (_ : list Dp83867.mdio_op) (_ : Dp83867.mdio_op) : Z := -5.

Definition phy_interrupt_enabled : Z := 0x80000000.

Definition phy_fresh (intr mirroring : Z) : Dp83867.phy_device :=
  {| Dp83867.interrupts := intr;
     Dp83867.phy_priv :=
       {| Dp83867.rx_id_delay := 0; Dp83867.tx_id_delay := 0;
          Dp83867.fifo_depth := 0; Dp83867.io_impedance := 0;
          Dp83867.port_mirroring := mirroring;
          Dp83867.rxctrl_strap_quirk := false;
          Dp83867.clk_output_sel := 0; Dp83867.sgmii_ref_clk_en := false |};
     Dp83867.mdio := [] |}.

(** A PCA9545 with an interrupt line, found through the id table. *)
Definition pca9545_platform : platform :=
  {| smbus_byte_functionality := true; mux_alloc_ok := true;
     reset_gpio := gpio_absent; of_match_data := None;
     driver_data := pca_9545;
     device_id := (0, {| manufacturer_id := 0; part_id := 0; die_revision := 0 |});
     of_idle_disconnect := false; client_irq := 17; domain_add_ok := true;
     create_mapping := fun c => 64 + c; pdata := None;
     add_adapter := fun _ _ => 0; request_irq := 0 |}.

(** A PCA9545 whose second adapter cannot be registered. *)
Definition pca9545_failing_platform : platform :=
  {| smbus_byte_functionality := true; mux_alloc_ok := true;
     reset_gpio := gpio_absent; of_match_data := None;
     driver_data := pca_9545;
     device_id := (0, {| manufacturer_id := 0; part_id := 0; die_revision := 0 |});
     of_idle_disconnect := false; client_irq := 17; domain_add_ok := true;
     create_mapping := fun c => 64 + c; pdata := None;
     add_adapter := fun _ a => if chan_id a =? 1 then -16 else 0;
     request_irq := 0 |}.

Section Driver.

(** The two manufacturer codes come from [linux/i2c.h] and the error
    numbers from [linux/errno.h]; the driver only compares and returns
    them, so the model is stated for any values. *)
Variables I2C_DEVICE_ID_NONE I2C_DEVICE_ID_NXP_SEMICONDUCTORS : Z.
Variables ENODEV ENOMEM EINVAL EOPNOTSUPP : Z.

(** The upstream bus and the part behind it: the return value of a
    transfer, given the transfers issued before it. *)
Variable smbus : list bus_op -> bus_op -> Z.

Definition no_identity : i2c_device_identity :=
  {| manufacturer_id := I2C_DEVICE_ID_NONE; part_id := 0; die_revision := 0 |}.

Definition nxp_identity (part : Z) : i2c_device_identity :=
  {| manufacturer_id := I2C_DEVICE_ID_NXP_SEMICONDUCTORS; part_id := part;
     die_revision := 0 |}.

(** [chips[]]: a field the initialiser leaves out is zero. *)
Definition chips (t : pca_type) : chip_desc :=
  match t with
  | pca_9540 => {| nchans := 2; enable := 0x4; has_irq := 0;
                   chip_muxtype := pca954x_ismux; chip_id := no_identity |}
  | pca_9542 => {| nchans := 2; enable := 0x4; has_irq := 1;
                   chip_muxtype := pca954x_ismux; chip_id := no_identity |}
  | pca_9543 => {| nchans := 2; enable := 0; has_irq := 1;
                   chip_muxtype := pca954x_isswi; chip_id := no_identity |}
  | pca_9544 => {| nchans := 4; enable := 0x4; has_irq := 1;
                   chip_muxtype := pca954x_ismux; chip_id := no_identity |}
  | pca_9545 => {| nchans := 4; enable := 0; has_irq := 1;
                   chip_muxtype := pca954x_isswi; chip_id := no_identity |}
  | pca_9546 => {| nchans := 4; enable := 0; has_irq := 0;
                   chip_muxtype := pca954x_isswi; chip_id := no_identity |}
  | pca_9547 => {| nchans := 8; enable := 0x8; has_irq := 0;
                   chip_muxtype := pca954x_ismux; chip_id := no_identity |}
  | pca_9548 => {| nchans := 8; enable := 0; has_irq := 0;
                   chip_muxtype := pca954x_isswi; chip_id := no_identity |}
  | pca_9846 => {| nchans := 4; enable := 0; has_irq := 0;
                   chip_muxtype := pca954x_isswi; chip_id := nxp_identity 0x10b |}
  | pca_9847 => {| nchans := 8; enable := 0x8; has_irq := 0;
                   chip_muxtype := pca954x_ismux; chip_id := nxp_identity 0x108 |}
  | pca_9848 => {| nchans := 8; enable := 0; has_irq := 0;
                   chip_muxtype := pca954x_isswi; chip_id := nxp_identity 0x10a |}
  | pca_9849 => {| nchans := 4; enable := 0x4; has_irq := 0;
                   chip_muxtype := pca954x_ismux; chip_id := nxp_identity 0x109 |}
  end.

(** *** Register access *)

Definition transfer (op : bus_op) (m : machine) : Z * machine :=
  (smbus (bus m) op, set_bus (bus m ++ [op]) m).

Definition pca954x_reg_write (val : Z) (m : machine) : Z * machine :=
  transfer (xfer_write val) m.

(** *** Channel selection *)

(** The local [regval] of [pca954x_select_chan].  [chan] is a [u32];
    the shift is defined in C for [chan < 32]. *)
Definition pca954x_regval (c : chip_desc) (chan : Z) : Z :=
  match chip_muxtype c with
  | pca954x_ismux => u8 (Z.lor chan (enable c))
  | pca954x_isswi => u8 (Z.shiftl 1 chan)
  end.

Definition pca954x_select_chan (m : machine) (chan : Z) : Z * machine :=
  let regval := pca954x_regval (chips (chip (priv m))) chan in
  let '(ret, m1) := pca954x_reg_write regval m in
  (ret, set_last_chan (if ret <? 0 then 0 else regval) m1).

Definition pca954x_deselect_mux (m : machine) (chan : Z) : Z * machine :=
  if Z.land (deselect (priv m)) (Z.shiftl 1 chan) =? 0 then (0, m)
  else
    (* Deselect active channel *)
    let m1 := set_last_chan 0 m in
    pca954x_reg_write (last_chan (priv m1)) m1.

(** *** Interrupt demultiplexing *)

(** [irq_linear_revmap(domain, hwirq)]: the Linux irq mapped to [hwirq],
    0 when there is none. *)
Definition irq_linear_revmap (d : option (gmap Z Z)) (hwirq : Z) : Z :=
  match d with
  | Some dm => default 0 (dm !! hwirq)
  | None => 0
  end.

(** The [for] loop of [pca954x_irq_handler], with [n] iterations left
    from index [i]. *)
Fixpoint irq_handler_loop (n : nat) (i ret handled : Z) (m : machine)
  : Z * machine :=
  match n with
  | O => (handled, m)
  | S n' =>
      if negb (Z.land ret (BIT (PCA954X_IRQ_OFFSET + i)) =? 0) then
        let child_irq := irq_linear_revmap (irq (priv m)) i in
        irq_handler_loop n' (i + 1) ret (handled + 1)
          (set_nested (nested m ++ [child_irq]) m)
      else irq_handler_loop n' (i + 1) ret handled m
  end.

Definition pca954x_irq_handler (m : machine) : irqreturn_t * machine :=
  let '(ret, m1) := transfer read_byte m in
  if ret <? 0 then (IRQ_NONE, m1)
  else
    let '(handled, m2) :=
      irq_handler_loop (Z.to_nat (nchans (chips (chip (priv m1))))) 0 ret 0 m1 in
    (if handled =? 0 then IRQ_NONE else IRQ_HANDLED, m2).

(** The mapping loop of [pca954x_irq_setup], entered with the domain
    allocated. *)
Fixpoint irq_setup_loop (pl : platform) (n : nat) (c : Z) (dm : gmap Z Z)
  : Z * gmap Z Z :=
  match n with
  | O => (0, dm)
  | S n' =>
      let irq := create_mapping pl c in
      if irq =? 0 then (- EINVAL, dm)
      else irq_setup_loop pl n' (c + 1) (<[c := irq]> dm)
  end.

Definition pca954x_irq_setup (pl : platform) (m : machine) : Z * machine :=
  let c := chips (chip (priv m)) in
  if (has_irq c =? 0) || (client_irq pl <=? 0) then (0, m)
  else if negb (domain_add_ok pl) then (- ENODEV, set_irq None m)
  else
    let '(ret, dm) := irq_setup_loop pl (Z.to_nat (nchans c)) 0 ∅ in
    (ret, set_irq (Some dm) m).

(** [pca954x_cleanup]: every mapping of the domain is disposed of and the
    domain removed, which leaves no domain; then the mux core drops all
    child adapters. *)
Definition pca954x_cleanup (m : machine) : machine :=
  let m1 := match irq (priv m) with
            | Some _ => set_irq None m
            | None => m
            end in
  set_adapter [] m1.

(** *** Probe *)

(** The identity check of [pca954x_probe]: [Some r] when the probe
    returns [r] there, [None] when it goes on. *)
Definition probe_check_identity (pl : platform) (t : pca_type) : option Z :=
  let expected := chip_id (chips t) in
  if manufacturer_id expected =? I2C_DEVICE_ID_NONE then None
  else
    let '(ret, id) := device_id pl in
    if negb (ret =? 0) && negb (ret =? - EOPNOTSUPP) then Some ret
    else if (ret =? 0)
            && (negb (manufacturer_id id =? manufacturer_id expected)
                || negb (part_id id =? part_id expected))
    then Some (- ENODEV)
    else None.

(** The adapter loop of [pca954x_probe], with [n] iterations left from
    channel [num]: the value of [ret] on leaving the loop (non-zero for
    the jump to [fail_cleanup]) and the machine.  With platform data the
    loop breaks at the first channel that has no mode. *)
Fixpoint probe_add_adapters (pl : platform) (idle_disconnect_dt : bool)
    (n : nat) (num : Z) (m : machine) : Z * machine :=
  match n with
  | O => (0, m)
  | S n' =>
      let step (force class : Z) (idle_disconnect_pd : bool) :=
        let m1 := set_deselect
                    (u8 (Z.lor (deselect (priv m))
                           (Z.shiftl (Z.b2z (idle_disconnect_pd || idle_disconnect_dt)) num)))
                    m in
        let a := {| force_nr := force; chan_id := num; adap_class := class |} in
        let ret := add_adapter pl (adapter m1) a in
        if ret =? 0 then
          probe_add_adapters pl idle_disconnect_dt n' (num + 1)
            (set_adapter (adapter m1 ++ [a]) m1)
        else (ret, m1) in
      match pdata pl with
      | Some modes =>
          match modes !! Z.to_nat num with
          | Some md => step (adap_id md) (mode_class md) (deselect_on_exit md)
          | None => (0, m)         (* discard unconfigured channels *)
          end
      | None => step 0 0 false
      end
  end.

(** [pca954x_probe] from the write that initialises the register on. *)
Definition probe_attach (pl : platform) (m : machine) : Z * machine :=
  let '(r, m1) := transfer (write_byte 0) m in
  if r <? 0 then (- ENODEV, m1)
  else
    let m2 := set_last_chan 0 m1 in     (* force the first selection *)
    let idle_disconnect_dt := of_idle_disconnect pl in
    let '(ret, m3) := pca954x_irq_setup pl m2 in
    if negb (ret =? 0) then (ret, pca954x_cleanup m3)
    else
      let '(ret, m4) :=
        probe_add_adapters pl idle_disconnect_dt
          (Z.to_nat (nchans (chips (chip (priv m3))))) 0 m3 in
      if negb (ret =? 0) then (ret, pca954x_cleanup m4)
      else
        match irq (priv m4) with
        | Some _ =>
            let ret := request_irq pl in
            if negb (ret =? 0) then (ret, pca954x_cleanup m4)
            else (0, set_irq_requested true m4)
        | None => (0, m4)
        end.

(** The descriptor [pca954x_probe] resolves. *)
Definition probe_chip (pl : platform) : pca_type :=
  match of_match_data pl with
  | Some t => t
  | None => driver_data pl
  end.

(** The instance [i2c_mux_alloc] hands out, zero-filled.  [data->chip]
    is assigned before it is first read, so the model carries the
    resolved descriptor from the start. *)
Definition probe_alloc (pl : platform) (bus0 : list bus_op) : machine :=
  {| priv := {| chip := probe_chip pl; last_chan := 0; deselect := 0;
                irq := None |};
     adapter := []; bus := bus0; nested := [];
     reset_pulsed := false; irq_requested := false |}.

(** Reset the mux if a reset GPIO is specified. *)
Definition probe_reset (g : gpio_lookup) (m : machine) : machine :=
  match g with
  | gpio_present => set_reset_pulsed true m
  | _ => m
  end.

(** [pca954x_probe] for a client whose bus has seen [bus0]. *)
Definition pca954x_probe (pl : platform) (bus0 : list bus_op) : Z * machine :=
  let m0 := probe_alloc pl bus0 in
  if negb (smbus_byte_functionality pl) then (- ENODEV, m0)
  else if negb (mux_alloc_ok pl) then (- ENOMEM, m0)
  else
    match reset_gpio pl with
    | gpio_error err => (err, m0)
    | g =>
        let m1 := probe_reset g m0 in
        match probe_check_identity pl (chip (priv m1)) with
        | Some r => (r, m1)
        | None => probe_attach pl m1
        end
    end.


Definition pca954x_resume (m : machine) : Z * machine :=
  let m1 := set_last_chan 0 m in
  transfer (write_byte 0) m1.

(** The channels a status byte reports, in the words of the
    specification: the indices [i] below the channel count with bit
    [4 + i] of the status byte set, in increasing order. *)
Definition status_channels (status n : Z) : list Z :=
  List.filter (fun i => Z.testbit status (PCA954X_IRQ_OFFSET + i)) (seqZ 0 n).

(** *** Interrupt type of the child lines *)

(** The two trigger-type constants come from [linux/irq.h]. *)
Variables IRQ_TYPE_SENSE_MASK IRQ_TYPE_LEVEL_LOW : Z.

(** [pca954x_irq_set_type]; [idata] is not used. *)
Definition pca954x_irq_set_type (type : Z) : Z :=
  if negb (Z.land type IRQ_TYPE_SENSE_MASK =? IRQ_TYPE_LEVEL_LOW) then - EINVAL
  else 0.

(** *** Sequences of calls *)

(** The entry points the kernel calls on an attached instance: the two
    mux callbacks, the threaded interrupt handler and the resume hook. *)
Inductive mux_call : Type :=
  | call_select (chan : Z)
  | call_deselect (chan : Z)
  | call_irq
  | call_resume.

Definition run_call (m : machine) (c : mux_call) : machine :=
  match c with
  | call_select chan => (pca954x_select_chan m chan).2
  | call_deselect chan => (pca954x_deselect_mux m chan).2
  | call_irq => (pca954x_irq_handler m).2
  | call_resume => (pca954x_resume m).2
  end.

Definition run_calls (cs : list mux_call) (m : machine) : machine :=
  foldl run_call m cs.

(** [last_chan] agrees with the bus: it is 0, or the byte of the last
    write on the bus, a write by [pca954x_reg_write] that did not fail. *)
Definition last_chan_coherent (m : machine) : Prop :=
  last_chan (priv m) = 0
  \/ exists pre post,
       bus m = pre ++ xfer_write (last_chan (priv m)) :: post
       /\ 0 <= smbus pre (xfer_write (last_chan (priv m)))
       /\ Forall (fun op => op = read_byte) post.

(** *** The adapter loop of the probe, per channel *)

(** The platform mode of channel [num], when there is platform data and
    [num < pdata->num_modes]. *)
Definition probe_mode (pl : platform) (num : Z) : option pca954x_platform_mode :=
  match pdata pl with
  | Some modes => modes !! Z.to_nat num
  | None => None
  end.

(** The arguments [force], [num] and [class] of the
    [i2c_mux_add_adapter] call for channel [num]. *)
Definition probe_adapter (pl : platform) (num : Z) : mux_adapter :=
  match probe_mode pl num with
  | Some md => {| force_nr := adap_id md; chan_id := num; adap_class := mode_class md |}
  | None => {| force_nr := 0; chan_id := num; adap_class := 0 |}
  end.

(** [idle_disconnect_pd || idle_disconnect_dt] for channel [num]. *)
Definition probe_idle_disconnect (pl : platform) (num : Z) : bool :=
  match probe_mode pl num with
  | Some md => deselect_on_exit md
  | None => false
  end || of_idle_disconnect pl.

(** The number of channels the loop goes through without a failure: all
    of them, or with platform data as many as there are modes. *)
Definition probe_nchannels (pl : platform) : Z :=
  match pdata pl with
  | Some modes => Z.min (nchans (chips (probe_chip pl))) (Z.of_nat (length modes))
  | None => nchans (chips (probe_chip pl))
  end.

(** ** Register encoding *)

Lemma chips_nchans_range (t : pca_type) :
  nchans (chips t) = 2 \/ nchans (chips t) = 4 \/ nchans (chips t) = 8.
Proof. destruct t; cbn; auto. Qed.

Lemma small_channel (chan n : Z) :
  0 <= chan < n -> n <= 8 ->
  chan = 0 \/ chan = 1 \/ chan = 2 \/ chan = 3 \/
  chan = 4 \/ chan = 5 \/ chan = 6 \/ chan = 7.
Proof. lia. Qed.

Ltac each_channel H :=
  repeat (destruct H as [H | H]; [subst; try reflexivity |]);
  try (subst; reflexivity).

Lemma regval_in_range (t : pca_type) (chan : Z) :
  0 <= chan < nchans (chips t) ->
  pca954x_regval (chips t) chan =
    match chip_muxtype (chips t) with
    | pca954x_ismux => Z.lor chan (enable (chips t))
    | pca954x_isswi => Z.shiftl 1 chan
    end.
Proof.
  intros Hc.
  assert (Hn : nchans (chips t) <= 8)
    by (destruct (chips_nchans_range t) as [E | [E | E]]; rewrite E; lia).
  pose proof (small_channel _ _ Hc Hn) as H.
  clear Hc Hn. destruct t; each_channel H.
Qed.

Lemma select_chan_unfold (m : machine) (chan : Z) :
  let regval := pca954x_regval (chips (chip (priv m))) chan in
  let ret := smbus (bus m) (xfer_write regval) in
  pca954x_select_chan m chan =
    (ret, set_last_chan (if ret <? 0 then 0 else regval)
            (set_bus (bus m ++ [xfer_write regval]) m)).
Proof. reflexivity. Qed.

(** C1: for every catalogue variant and every channel below its channel
    count, the byte [pca954x_select_chan] computes and puts on the bus is
    [chan | enable] for a mux and [1 << chan] for a switch. *)
Theorem select_chan_encoding (t : pca_type) (m : machine) (chan : Z) :
  chip (priv m) = t ->
  0 <= chan < nchans (chips t) ->
  pca954x_regval (chips t) chan =
    match chip_muxtype (chips t) with
    | pca954x_ismux => Z.lor chan (enable (chips t))
    | pca954x_isswi => Z.shiftl 1 chan
    end
  /\ bus (pca954x_select_chan m chan).2 =
       bus m ++ [xfer_write
                   match chip_muxtype (chips t) with
                   | pca954x_ismux => Z.lor chan (enable (chips t))
                   | pca954x_isswi => Z.shiftl 1 chan
                   end].
Proof.
  intros Ht Hc. pose proof (regval_in_range t chan Hc) as E.
  split; [exact E |].
  rewrite select_chan_unfold. cbn. rewrite Ht, E. reflexivity.
Qed.

(** C10: for every catalogue variant and every channel below its channel
    count the select byte is not 0, the byte of the disconnected state: a
    mux has enable pattern 0x4 or 0x8, and a switch byte has bit [chan]
    set. *)
Theorem select_regval_nonzero (t : pca_type) (chan : Z) :
  0 <= chan < nchans (chips t) ->
  pca954x_regval (chips t) chan <> 0
  /\ match chip_muxtype (chips t) with
     | pca954x_ismux => enable (chips t) = 0x4 \/ enable (chips t) = 0x8
     | pca954x_isswi => Z.testbit (pca954x_regval (chips t) chan) chan = true
     end.
Proof.
  intros Hc.
  assert (Hn : nchans (chips t) <= 8)
    by (destruct (chips_nchans_range t) as [E | [E | E]]; rewrite E; lia).
  pose proof (small_channel _ _ Hc Hn) as H.
  split.
  - clear Hn. destruct t; cbn in Hc;
      repeat (destruct H as [H | H]; [subst; try (vm_compute; discriminate); lia |]);
      subst; try (vm_compute; discriminate); lia.
  - clear Hc Hn. destruct t; cbn; auto; each_channel H.
Qed.

(** ** Selection and deselection *)

(** C4: every call of [pca954x_select_chan] issues exactly one register
    write, the computed byte, whatever [last_chan] holds; in particular
    when the byte equals [last_chan] the write is still issued
    ([scenario_mux_select] is such a call). *)
Theorem select_chan_one_write (m : machine) (chan : Z) :
  bus (pca954x_select_chan m chan).2 =
    bus m ++ [xfer_write (pca954x_regval (chips (chip (priv m))) chan)]
  /\ length (bus (pca954x_select_chan m chan).2) = S (length (bus m)).
Proof.
  rewrite select_chan_unfold. cbn. split; [reflexivity |].
  rewrite length_app. cbn. lia.
Qed.

Lemma deselect_mux_unmarked (m : machine) (chan : Z) :
  Z.land (deselect (priv m)) (Z.shiftl 1 chan) = 0 ->
  pca954x_deselect_mux m chan = (0, m).
Proof.
  intros H. unfold pca954x_deselect_mux. rewrite H. reflexivity.
Qed.

Lemma deselect_mux_marked (m : machine) (chan : Z) :
  Z.land (deselect (priv m)) (Z.shiftl 1 chan) <> 0 ->
  pca954x_deselect_mux m chan =
    (smbus (bus m) (xfer_write 0),
     set_bus (bus m ++ [xfer_write 0]) (set_last_chan 0 m)).
Proof.
  intros H. unfold pca954x_deselect_mux.
  destruct (Z.eqb_spec (Z.land (deselect (priv m)) (Z.shiftl 1 chan)) 0);
    [contradiction | reflexivity].
Qed.

(** C2: when [pca954x_select_chan] or [pca954x_deselect_mux] returns a
    bus-write failure, [last_chan] is 0 afterwards; when the write
    succeeds, select leaves the written byte in [last_chan], and a
    deselect that writes (a marked channel) leaves 0, whatever the
    outcome of the write. *)
Theorem write_failure_resets_last_chan (m : machine) (chan : Z) :
  ((pca954x_select_chan m chan).1 < 0 ->
     last_chan (priv (pca954x_select_chan m chan).2) = 0)
  /\ (0 <= (pca954x_select_chan m chan).1 ->
       last_chan (priv (pca954x_select_chan m chan).2) =
         pca954x_regval (chips (chip (priv m))) chan
       /\ bus (pca954x_select_chan m chan).2 =
            bus m ++ [xfer_write (last_chan (priv (pca954x_select_chan m chan).2))])
  /\ ((pca954x_deselect_mux m chan).1 < 0 ->
       last_chan (priv (pca954x_deselect_mux m chan).2) = 0)
  /\ (Z.land (deselect (priv m)) (Z.shiftl 1 chan) <> 0 ->
       last_chan (priv (pca954x_deselect_mux m chan).2) = 0).
Proof.
  rewrite select_chan_unfold. cbn.
  repeat split.
  - intros H. apply Z.ltb_lt in H. rewrite H. reflexivity.
  - destruct (Z.ltb_spec (smbus (bus m)
      (xfer_write (pca954x_regval (chips (chip (priv m))) chan))) 0); [lia | reflexivity].
  - destruct (Z.ltb_spec (smbus (bus m)
      (xfer_write (pca954x_regval (chips (chip (priv m))) chan))) 0); [lia | reflexivity].
  - destruct (Z.eq_dec (Z.land (deselect (priv m)) (Z.shiftl 1 chan)) 0) as [E | E].
    + rewrite (deselect_mux_unmarked m chan E). cbn. lia.
    + rewrite (deselect_mux_marked m chan E). reflexivity.
  - intros E. rewrite (deselect_mux_marked m chan E). reflexivity.
Qed.

(** C5: [pca954x_deselect_mux] on a channel whose bit is clear in
    [deselect] returns 0 and issues no transfer; on a channel whose bit
    is set it writes the byte 0. *)
Theorem deselect_mux_bus_activity (m : machine) (chan : Z) :
  (Z.land (deselect (priv m)) (Z.shiftl 1 chan) = 0 ->
     (pca954x_deselect_mux m chan).1 = 0
     /\ bus (pca954x_deselect_mux m chan).2 = bus m)
  /\ (Z.land (deselect (priv m)) (Z.shiftl 1 chan) <> 0 ->
       bus (pca954x_deselect_mux m chan).2 = bus m ++ [xfer_write 0]).
Proof.
  split; intros E.
  - rewrite (deselect_mux_unmarked m chan E). split; reflexivity.
  - rewrite (deselect_mux_marked m chan E). reflexivity.
Qed.

(** C9: on a channel whose bit is clear in [deselect],
    [pca954x_deselect_mux] returns the machine it was given: [last_chan]
    and every other field keep their values. *)
Theorem deselect_mux_fast_path_frame (m : machine) (chan : Z) :
  Z.land (deselect (priv m)) (Z.shiftl 1 chan) = 0 ->
  (pca954x_deselect_mux m chan).2 = m
  /\ last_chan (priv (pca954x_deselect_mux m chan).2) = last_chan (priv m).
Proof.
  intros E. rewrite (deselect_mux_unmarked m chan E). split; reflexivity.
Qed.

(** ** Interrupt demultiplexing *)

Lemma land_bit_testbit (a k : Z) :
  0 <= k -> negb (Z.land a (BIT k) =? 0) = Z.testbit a k.
Proof.
  intros Hk. unfold BIT.
  destruct (Z.testbit a k) eqn:Hb.
  - destruct (Z.eqb_spec (Z.land a (Z.shiftl 1 k)) 0) as [E | E]; [| reflexivity].
    exfalso. apply (f_equal (fun z => Z.testbit z k)) in E.
    rewrite Z.land_spec, Hb, Z.shiftl_spec, Z.sub_diag, Z.bits_0 in E by lia.
    discriminate.
  - destruct (Z.eqb_spec (Z.land a (Z.shiftl 1 k)) 0) as [E | E]; [reflexivity |].
    exfalso. apply E. apply Z.bits_inj'. intros j Hj.
    rewrite Z.land_spec, Z.bits_0, Z.shiftl_spec by lia.
    destruct (Z.eq_dec j k) as [-> | Hne]; [rewrite Hb; reflexivity |].
    destruct (Z.ltb_spec j k).
    + rewrite (Z.testbit_neg_r 1) by lia. apply andb_false_r.
    + rewrite (Z.bits_above_log2 1) by (cbn; lia). apply andb_false_r.
Qed.

Lemma set_nested_app_nil (m : machine) : set_nested (nested m ++ []) m = m.
Proof. destruct m. unfold set_nested. cbn. rewrite app_nil_r. reflexivity. Qed.

Lemma irq_handler_loop_spec (n : nat) (i ret handled : Z) (m : machine) :
  0 <= i ->
  let chans :=
    List.filter (fun j => Z.testbit ret (PCA954X_IRQ_OFFSET + j))
      (seqZ i (Z.of_nat n)) in
  irq_handler_loop n i ret handled m =
    (handled + Z.of_nat (length chans),
     set_nested (nested m ++ map (irq_linear_revmap (irq (priv m))) chans) m).
Proof.
  revert i handled m. induction n as [| n IH]; intros i handled m Hi.
  - cbn zeta. rewrite seqZ_nil by (cbn; lia). cbn.
    rewrite set_nested_app_nil. f_equal. lia.
  - cbn zeta. rewrite seqZ_cons by lia.
    replace (Z.pred (Z.of_nat (S n))) with (Z.of_nat n) by lia.
    replace (Z.succ i) with (i + 1) by lia.
    cbn [irq_handler_loop List.filter].
    rewrite land_bit_testbit by (unfold PCA954X_IRQ_OFFSET; lia).
    destruct (Z.testbit ret (PCA954X_IRQ_OFFSET + i)).
    + rewrite IH by lia. cbn [length map]. f_equal; [lia |].
      unfold set_nested. cbn. rewrite <- app_assoc. reflexivity.
    + rewrite IH by lia. reflexivity.
Qed.

Lemma status_channels_In (status n i : Z) :
  In i (status_channels status n) <->
  0 <= i < n /\ Z.testbit status (PCA954X_IRQ_OFFSET + i) = true.
Proof.
  unfold status_channels. rewrite List.filter_In, <- list_elem_of_In, elem_of_seqZ.
  intuition lia.
Qed.

(** C3: [pca954x_irq_handler] reads one status byte.  When the read
    fails it returns [IRQ_NONE] and raises no nested interrupt.
    Otherwise the channels it raises a nested interrupt for, each through
    the Linux irq the domain maps it to, are exactly the indices [i]
    below the channel count with bit [4 + i] of the status set, and it
    returns [IRQ_HANDLED] if and only if there is such a channel. *)
Theorem irq_handler_dispatch (m : machine) :
  (smbus (bus m) read_byte < 0 ->
     (pca954x_irq_handler m).1 = IRQ_NONE
     /\ nested (pca954x_irq_handler m).2 = nested m)
  /\ (0 <= smbus (bus m) read_byte ->
       nested (pca954x_irq_handler m).2 =
         nested m ++
         map (irq_linear_revmap (irq (priv m)))
           (status_channels (smbus (bus m) read_byte)
              (nchans (chips (chip (priv m)))))
       /\ ((pca954x_irq_handler m).1 = IRQ_HANDLED <->
            status_channels (smbus (bus m) read_byte)
              (nchans (chips (chip (priv m)))) <> [])
       /\ ((pca954x_irq_handler m).1 = IRQ_NONE <->
            status_channels (smbus (bus m) read_byte)
              (nchans (chips (chip (priv m)))) = []))
  /\ (forall i : Z,
        In i (status_channels (smbus (bus m) read_byte)
                (nchans (chips (chip (priv m))))) <->
        0 <= i < nchans (chips (chip (priv m)))
        /\ Z.testbit (smbus (bus m) read_byte) (4 + i) = true).
Proof.
  split; [| split].
  - intros H. unfold pca954x_irq_handler, transfer.
    apply Z.ltb_lt in H. rewrite H. split; reflexivity.
  - intros H.
    assert (Hn : 0 <= nchans (chips (chip (priv m))))
      by (destruct (chips_nchans_range (chip (priv m))) as [E | [E | E]];
          rewrite E; lia).
    unfold pca954x_irq_handler, transfer.
    destruct (Z.ltb_spec (smbus (bus m) read_byte) 0) as [? | _]; [lia |].
    rewrite irq_handler_loop_spec by lia.
    cbn [fst snd priv set_bus chip nested irq set_nested].
    rewrite Z2Nat.id by exact Hn. fold (status_channels (smbus (bus m) read_byte)
      (nchans (chips (chip (priv m))))).
    destruct (status_channels (smbus (bus m) read_byte)
      (nchans (chips (chip (priv m))))) as [| c l].
    + cbn. repeat split; try reflexivity; try congruence; discriminate.
    + cbn [length].
      destruct (Z.eqb_spec (0 + Z.of_nat (S (length l))) 0) as [E | _]; [lia |].
      repeat split; try reflexivity; try congruence; discriminate.
  - intros i. apply status_channels_In.
Qed.

(** ** Probe and resume *)

Lemma set_irq_same (m : machine) : set_irq (irq (priv m)) m = m.
Proof. destruct m as [[] ? ? ? ? ?]. reflexivity. Qed.

(** [pca954x_irq_setup] touches nothing but [data->irq]. *)
Lemma irq_setup_frame (pl : platform) (m : machine) :
  exists d, (pca954x_irq_setup pl m).2 = set_irq d m.
Proof.
  unfold pca954x_irq_setup.
  destruct ((has_irq (chips (chip (priv m))) =? 0) || (client_irq pl <=? 0)).
  - exists (irq (priv m)). cbn. symmetry. apply set_irq_same.
  - destruct (domain_add_ok pl); cbn.
    + destruct (irq_setup_loop pl (Z.to_nat (nchans (chips (chip (priv m))))) 0 ∅)
        as [ret dm].
      exists (Some dm). reflexivity.
    + exists None. reflexivity.
Qed.

(** The adapter loop leaves the bus, the chip, [last_chan] and the irq
    domain alone and registers at most one adapter per iteration. *)
Lemma add_adapters_frame (pl : platform) (dt : bool) (n : nat) (num : Z)
    (m : machine) :
  let r := probe_add_adapters pl dt n num m in
  bus r.2 = bus m /\ chip (priv r.2) = chip (priv m)
  /\ last_chan (priv r.2) = last_chan (priv m)
  /\ irq (priv r.2) = irq (priv m)
  /\ (length (adapter r.2) <= length (adapter m) + n)%nat.
Proof.
  cbn zeta. revert num m. induction n as [| n IH]; intros num m.
  - cbn. repeat split; lia.
  - cbn [probe_add_adapters].
    destruct (pdata pl) as [modes |].
    + destruct (modes !! Z.to_nat num) as [md |]; [| cbn; repeat split; lia].
      destruct (Z.eqb_spec (add_adapter pl (adapter (set_deselect
        (u8 (Z.lor (deselect (priv m))
           (Z.shiftl (Z.b2z (deselect_on_exit md || dt)) num))) m))
        {| force_nr := adap_id md; chan_id := num; adap_class := mode_class md |}) 0)
        as [_ | _]; [| cbn; repeat split; lia].
      match goal with |- context [probe_add_adapters pl dt n ?a ?b] =>
        destruct (IH a b) as (H1 & H2 & H3 & H4 & H5) end.
      rewrite H1, H2, H3, H4. cbn in *. rewrite length_app in H5. cbn in H5.
      repeat split; lia.
    + destruct (Z.eqb_spec (add_adapter pl (adapter (set_deselect
        (u8 (Z.lor (deselect (priv m))
           (Z.shiftl (Z.b2z (false || dt)) num))) m))
        {| force_nr := 0; chan_id := num; adap_class := 0 |}) 0)
        as [_ | _]; [| cbn; repeat split; lia].
      match goal with |- context [probe_add_adapters pl dt n ?a ?b] =>
        destruct (IH a b) as (H1 & H2 & H3 & H4 & H5) end.
      rewrite H1, H2, H3, H4. cbn in *. rewrite length_app in H5. cbn in H5.
      repeat split; lia.
Qed.

(** With platform data the loop stops where the modes end. *)
Lemma add_adapters_truncated (pl : platform) (dt : bool)
    (modes : list pca954x_platform_mode) (n : nat) (num : Z) (m : machine) :
  pdata pl = Some modes -> 0 <= num ->
  (length (adapter (probe_add_adapters pl dt n num m).2) <=
     length (adapter m) + (length modes - Z.to_nat num))%nat.
Proof.
  intros Hpd. revert num m. induction n as [| n IH]; intros num m Hnum.
  - cbn. lia.
  - cbn [probe_add_adapters]. rewrite Hpd.
    destruct (modes !! Z.to_nat num) as [md |] eqn:Hl; [| cbn; lia].
    apply lookup_lt_Some in Hl.
    destruct (Z.eqb_spec (add_adapter pl (adapter (set_deselect
      (u8 (Z.lor (deselect (priv m))
         (Z.shiftl (Z.b2z (deselect_on_exit md || dt)) num))) m))
      {| force_nr := adap_id md; chan_id := num; adap_class := mode_class md |}) 0)
      as [_ | _]; [| cbn; lia].
    match goal with |- context [probe_add_adapters pl dt n ?a ?b] =>
      pose proof (IH a b ltac:(lia)) as H5 end.
    cbn in *. rewrite length_app in H5. cbn in H5.
    replace (Z.to_nat (num + 1)) with (S (Z.to_nat num)) in H5 by lia. lia.
Qed.

Lemma cleanup_frame (m : machine) :
  adapter (pca954x_cleanup m) = [] /\ bus (pca954x_cleanup m) = bus m
  /\ last_chan (priv (pca954x_cleanup m)) = last_chan (priv m).
Proof. unfold pca954x_cleanup. destruct (irq (priv m)); repeat split. Qed.

(** What [probe_attach] leaves behind, on every path: one transfer, the
    write of 0; [last_chan] at 0 once that write went through; at most as
    many adapters as the chip has channels and as the platform data has
    modes. *)
Lemma probe_attach_frame (pl : platform) (m : machine) :
  let r := probe_attach pl m in
  bus r.2 = bus m ++ [write_byte 0]
  /\ (0 <= smbus (bus m) (write_byte 0) -> last_chan (priv r.2) = 0)
  /\ (adapter m = [] ->
       (length (adapter r.2) <= Z.to_nat (nchans (chips (chip (priv m)))))%nat
       /\ forall modes, pdata pl = Some modes ->
            (length (adapter r.2) <= length modes)%nat).
Proof.
  cbn zeta. unfold probe_attach, transfer.
  destruct (Z.ltb_spec (smbus (bus m) (write_byte 0)) 0) as [Hf | Hs].
  { cbn. split; [reflexivity |]. split; [lia |].
    intros Hnil. rewrite Hnil. cbn. split; [lia | intros; lia]. }
  set (m2 := set_last_chan 0 (set_bus (bus m ++ [write_byte 0]) m)).
  destruct (irq_setup_frame pl m2) as [d Hd].
  destruct (pca954x_irq_setup pl m2) as [ret m3]. cbn in Hd. subst m3.
  destruct (Z.eqb_spec ret 0) as [_ | _]; cbn [negb].
  2: { destruct (cleanup_frame (set_irq d m2)) as (Ha & Hb & Hl).
       cbn [snd]. rewrite Ha, Hb, Hl. cbn. repeat split; intros; lia. }
  pose proof (add_adapters_frame pl (of_idle_disconnect pl)
    (Z.to_nat (nchans (chips (chip (priv (set_irq d m2)))))) 0 (set_irq d m2)) as F.
  pose proof (fun modes Hpd => add_adapters_truncated pl (of_idle_disconnect pl)
    modes (Z.to_nat (nchans (chips (chip (priv (set_irq d m2)))))) 0 (set_irq d m2)
    Hpd ltac:(lia)) as T.
  cbn zeta in F.
  destruct (probe_add_adapters pl (of_idle_disconnect pl)
    (Z.to_nat (nchans (chips (chip (priv (set_irq d m2)))))) 0 (set_irq d m2))
    as [ret' m4].
  cbn [snd] in F, T. destruct F as (F1 & F2 & F3 & F4 & F5).
  cbn in F1, F2, F3, F4, F5, T.
  assert (Hdone : forall m5 : machine,
    adapter m5 = adapter m4 \/ adapter m5 = [] -> bus m5 = bus m4 ->
    last_chan (priv m5) = last_chan (priv m4) ->
    bus m5 = bus m ++ [write_byte 0]
    /\ (0 <= smbus (bus m) (write_byte 0) -> last_chan (priv m5) = 0)
    /\ (adapter m = [] ->
         (length (adapter m5) <= Z.to_nat (nchans (chips (chip (priv m)))))%nat
         /\ forall modes, pdata pl = Some modes ->
              (length (adapter m5) <= length modes)%nat)).
  { intros m5 Ha Hb Hl. rewrite Hb, Hl, F1, F3.
    split; [reflexivity |]. split; [reflexivity |].
    intros Hnil. rewrite Hnil in F5, T. cbn in F5, T.
    destruct Ha as [Ha | Ha]; rewrite Ha; cbn.
    - split; [lia |]. intros modes Hpd. specialize (T modes Hpd). lia.
    - split; [lia |]. intros; lia. }
  destruct (Z.eqb_spec ret' 0) as [_ | _]; cbn [negb].
  2: { destruct (cleanup_frame m4) as (Ha & Hb & Hl). cbn [snd].
       apply Hdone; auto. }
  destruct (irq (priv m4)).
  - destruct (Z.eqb_spec (request_irq pl) 0) as [_ | _]; cbn [negb snd].
    + apply Hdone; auto.
    + destruct (cleanup_frame m4) as (Ha & Hb & Hl). apply Hdone; auto.
  - cbn [snd]. apply Hdone; auto.
Qed.

(** A descriptor without identity data: the probe goes from the reset
    straight to the register write. *)
Lemma probe_without_identity (pl : platform) (bus0 : list bus_op) :
  smbus_byte_functionality pl = true ->
  mux_alloc_ok pl = true ->
  (forall err, reset_gpio pl <> gpio_error err) ->
  manufacturer_id (chip_id (chips (probe_chip pl))) = I2C_DEVICE_ID_NONE ->
  pca954x_probe pl bus0 =
    probe_attach pl (probe_reset (reset_gpio pl) (probe_alloc pl bus0)).
Proof.
  intros Hf Ha Hg Hid. unfold pca954x_probe. rewrite Hf, Ha. cbn [negb].
  assert (Hc : chip (priv (probe_reset (reset_gpio pl) (probe_alloc pl bus0)))
               = probe_chip pl) by (destruct (reset_gpio pl); reflexivity).
  destruct (reset_gpio pl) eqn:Eg; [exfalso; exact (Hg _ eq_refl) | |];
    rewrite Hc; unfold probe_check_identity; rewrite Hid, Z.eqb_refl;
    reflexivity.
Qed.

(** C6: the probe has resolved a descriptor that carries identity data.
    If the identity read succeeds with another manufacturer or part, the
    probe returns [-ENODEV], has registered no adapter and has not touched
    the mux register.  If the read returns [-EOPNOTSUPP], the probe goes
    on from the reset to the register write, as it does for a descriptor
    without identity data ([probe_without_identity]). *)
Theorem probe_identity_check (pl : platform) (bus0 : list bus_op) :
  smbus_byte_functionality pl = true ->
  mux_alloc_ok pl = true ->
  (forall err, reset_gpio pl <> gpio_error err) ->
  manufacturer_id (chip_id (chips (probe_chip pl))) <> I2C_DEVICE_ID_NONE ->
  (forall id : i2c_device_identity,
     device_id pl = (0, id) ->
     manufacturer_id id <> manufacturer_id (chip_id (chips (probe_chip pl)))
     \/ part_id id <> part_id (chip_id (chips (probe_chip pl))) ->
     (pca954x_probe pl bus0).1 = - ENODEV
     /\ adapter (pca954x_probe pl bus0).2 = []
     /\ bus (pca954x_probe pl bus0).2 = bus0)
  /\ (EOPNOTSUPP <> 0 ->
       forall id : i2c_device_identity,
         device_id pl = (- EOPNOTSUPP, id) ->
         pca954x_probe pl bus0 =
           probe_attach pl (probe_reset (reset_gpio pl) (probe_alloc pl bus0))).
Proof.
  intros Hf Ha Hg Hid.
  assert (Hc : chip (priv (probe_reset (reset_gpio pl) (probe_alloc pl bus0)))
               = probe_chip pl) by (destruct (reset_gpio pl); reflexivity).
  assert (Hp : pca954x_probe pl bus0 =
    match probe_check_identity pl (probe_chip pl) with
    | Some r => (r, probe_reset (reset_gpio pl) (probe_alloc pl bus0))
    | None => probe_attach pl (probe_reset (reset_gpio pl) (probe_alloc pl bus0))
    end).
  { unfold pca954x_probe. rewrite Hf, Ha. cbn [negb].
    destruct (reset_gpio pl) eqn:Eg; [exfalso; exact (Hg _ eq_refl) | |];
      rewrite Hc; reflexivity. }
  rewrite Hp. unfold probe_check_identity.
  destruct (Z.eqb_spec (manufacturer_id (chip_id (chips (probe_chip pl))))
              I2C_DEVICE_ID_NONE) as [E | _]; [contradiction |].
  split.
  - intros id Hd Hne. rewrite Hd. cbn [Z.eqb negb andb].
    assert (Hm : negb (manufacturer_id id =?
                         manufacturer_id (chip_id (chips (probe_chip pl))))
                 || negb (part_id id =? part_id (chip_id (chips (probe_chip pl))))
                 = true).
    { destruct Hne as [Hne | Hne]; apply Z.eqb_neq in Hne; rewrite Hne;
        [reflexivity | apply orb_true_r]. }
    rewrite Hm. destruct (reset_gpio pl); repeat split.
  - intros Hnz id Hd. rewrite Hd. rewrite Z.eqb_refl.
    assert (Hz : (- EOPNOTSUPP =? 0) = false) by (apply Z.eqb_neq; lia).
    rewrite Hz. reflexivity.
Qed.

(** C7: [pca954x_resume] does what the probe does to initialise the
    register, and nothing else: it issues one transfer, the write of the
    byte 0, returns its result and leaves [last_chan] at 0; the adapters,
    the irq domain and every other field keep their values.  The bus and,
    once the write goes through, [last_chan] end up as [probe_attach]
    leaves them from the same machine. *)
Theorem resume_reinitialises (m : machine) :
  bus (pca954x_resume m).2 = bus m ++ [write_byte 0]
  /\ (pca954x_resume m).1 = smbus (bus m) (write_byte 0)
  /\ last_chan (priv (pca954x_resume m).2) = 0
  /\ adapter (pca954x_resume m).2 = adapter m
  /\ irq (priv (pca954x_resume m).2) = irq (priv m)
  /\ chip (priv (pca954x_resume m).2) = chip (priv m)
  /\ deselect (priv (pca954x_resume m).2) = deselect (priv m)
  /\ nested (pca954x_resume m).2 = nested m
  /\ reset_pulsed (pca954x_resume m).2 = reset_pulsed m
  /\ irq_requested (pca954x_resume m).2 = irq_requested m
  /\ forall pl : platform,
       bus (probe_attach pl m).2 = bus (pca954x_resume m).2
       /\ (0 <= smbus (bus m) (write_byte 0) ->
            last_chan (priv (probe_attach pl m).2) =
              last_chan (priv (pca954x_resume m).2)).
Proof.
  repeat (split; [reflexivity |]).
  intros pl. destruct (probe_attach_frame pl m) as (Hb & Hl & _).
  split; [exact Hb | exact Hl].
Qed.

(** C8: every catalogue variant has 2, 4 or 8 channels, and the probe
    never leaves more than [PCA954X_MAX_NCHANS] adapters registered: at
    most one per channel of the resolved variant, and with platform data
    at most one per mode. *)
Theorem probe_adapter_bound :
  (forall t : pca_type,
     nchans (chips t) = 2 \/ nchans (chips t) = 4 \/ nchans (chips t) = 8)
  /\ forall (pl : platform) (bus0 : list bus_op),
       Z.of_nat (length (adapter (pca954x_probe pl bus0).2)) <= PCA954X_MAX_NCHANS
       /\ Z.of_nat (length (adapter (pca954x_probe pl bus0).2)) <=
            nchans (chips (probe_chip pl))
       /\ forall modes, pdata pl = Some modes ->
            (length (adapter (pca954x_probe pl bus0).2) <= length modes)%nat.
Proof.
  split; [exact chips_nchans_range |].
  intros pl bus0.
  assert (Hn : 2 <= nchans (chips (probe_chip pl)) <= PCA954X_MAX_NCHANS)
    by (unfold PCA954X_MAX_NCHANS;
        destruct (chips_nchans_range (probe_chip pl)) as [E | [E | E]];
        rewrite E; lia).
  assert (H : (length (adapter (pca954x_probe pl bus0).2) <=
                 Z.to_nat (nchans (chips (probe_chip pl))))%nat
              /\ forall modes, pdata pl = Some modes ->
                   (length (adapter (pca954x_probe pl bus0).2) <= length modes)%nat).
  { unfold pca954x_probe.
    destruct (smbus_byte_functionality pl); cbn [negb];
      [| cbn; split; intros; lia].
    destruct (mux_alloc_ok pl); cbn [negb]; [| cbn; split; intros; lia].
    assert (Hc : forall g, chip (priv (probe_reset g (probe_alloc pl bus0)))
                           = probe_chip pl) by (intros []; reflexivity).
    assert (Ha : forall g, adapter (probe_reset g (probe_alloc pl bus0)) = [])
      by (intros []; reflexivity).
    destruct (reset_gpio pl) as [err | |] eqn:Eg; [cbn; split; intros; lia | |].
    all: match goal with
         | |- context [probe_reset ?g _] =>
             specialize (Hc g); specialize (Ha g);
             destruct (probe_check_identity pl
                         (chip (priv (probe_reset g (probe_alloc pl bus0)))));
             [cbn [snd]; rewrite Ha; cbn; split; intros; lia |];
             destruct (probe_attach_frame pl (probe_reset g (probe_alloc pl bus0)))
               as (_ & _ & Hlen); specialize (Hlen Ha); rewrite Hc in Hlen;
             exact Hlen
         end. }
  destruct H as [H1 H2]. repeat split; [lia | lia | exact H2].
Qed.

(** ** Further properties of the encoding *)

(** X1: on the channels of a catalogue variant the select byte determines
    the channel: two channels below the channel count with the same byte
    are the same channel. *)
Theorem select_regval_injective (t : pca_type) (c1 c2 : Z) :
  0 <= c1 < nchans (chips t) ->
  0 <= c2 < nchans (chips t) ->
  pca954x_regval (chips t) c1 = pca954x_regval (chips t) c2 ->
  c1 = c2.
Proof.
  intros H1 H2 E.
  assert (Hn : nchans (chips t) <= 8)
    by (destruct (chips_nchans_range t) as [N | [N | N]]; rewrite N; lia).
  pose proof (small_channel _ _ H1 Hn) as D1.
  pose proof (small_channel _ _ H2 Hn) as D2.
  clear Hn.
  destruct t; cbn in H1, H2;
    repeat (destruct D1 as [D1 | D1]; [subst c1 |]); try subst c1;
    try lia;
    repeat (destruct D2 as [D2 | D2]; [subst c2 |]); try subst c2;
    first [reflexivity | lia | vm_compute in E; discriminate E].
Qed.

(** X2: the byte of a switch has the bit of the selected channel set and
    no other bit, so selecting a channel of a switch disconnects every
    other channel.  The byte of a mux has the enable bit set and the
    channel number in the bits below it. *)
Theorem select_regval_bits (t : pca_type) (chan : Z) :
  0 <= chan < nchans (chips t) ->
  match chip_muxtype (chips t) with
  | pca954x_isswi =>
      forall i, 0 <= i ->
        Z.testbit (pca954x_regval (chips t) chan) i = (i =? chan)
  | pca954x_ismux =>
      Z.land (pca954x_regval (chips t) chan) (enable (chips t)) = enable (chips t)
      /\ Z.land (pca954x_regval (chips t) chan) (enable (chips t) - 1) = chan
      /\ nchans (chips t) <= enable (chips t)
  end.
Proof.
  intros Hc. pose proof (regval_in_range t chan Hc) as E.
  destruct (chip_muxtype (chips t)) eqn:Hm.
  - assert (Hn : nchans (chips t) <= 8)
      by (destruct (chips_nchans_range t) as [N | [N | N]]; rewrite N; lia).
    pose proof (small_channel _ _ Hc Hn) as D. clear E Hn.
    destruct t; try discriminate Hm; cbn in Hc;
      repeat (destruct D as [D | D]; [subst chan |]); try subst chan;
      first [lia | vm_compute; repeat split; discriminate].
  - intros i Hi. rewrite E, Z.shiftl_1_l, Z.pow2_bits_eqb by lia.
    apply Z.eqb_sym.
Qed.

(** ** Further properties of the interrupt path *)

(** X3: [pca954x_irq_set_type] looks at the sense bits of the requested
    type only: bits outside [IRQ_TYPE_SENSE_MASK] do not change its
    answer, which is 0 or [-EINVAL]. *)
Theorem irq_set_type_sense_only (type extra : Z) :
  Z.land extra IRQ_TYPE_SENSE_MASK = 0 ->
  pca954x_irq_set_type (Z.lor type extra) = pca954x_irq_set_type type
  /\ (pca954x_irq_set_type type = 0 \/ pca954x_irq_set_type type = - EINVAL).
Proof.
  intros H. unfold pca954x_irq_set_type.
  rewrite Z.land_lor_distr_l, H, Z.lor_0_r. split; [reflexivity |].
  destruct (Z.land type IRQ_TYPE_SENSE_MASK =? IRQ_TYPE_LEVEL_LOW); auto.
Qed.

Lemma filter_all_false {A : Type} (f : A -> bool) (l : list A) :
  Forall (fun x => f x = false) l -> List.filter f l = [].
Proof.
  induction 1 as [| x l Hx _ IH]; cbn; [reflexivity |].
  rewrite Hx. exact IH.
Qed.

Lemma status_channels_byte (status n : Z) :
  0 <= status < 256 ->
  status_channels status n = status_channels status (Z.min n 4).
Proof.
  intros Hs. destruct (Z.le_gt_cases n 4) as [Hn | Hn].
  - rewrite Z.min_l by lia. reflexivity.
  - rewrite Z.min_r by lia. unfold status_channels.
    replace n with (4 + (n - 4)) at 1 by lia.
    rewrite seqZ_app by lia. rewrite List.filter_app.
    rewrite <- (app_nil_r (List.filter _ (seqZ 0 4))) at 2. f_equal.
    apply filter_all_false. rewrite Forall_seqZ. intros i Hi.
    unfold PCA954X_IRQ_OFFSET.
    destruct (Z.eq_dec status 0) as [-> | Hz]; [apply Z.bits_0 |].
    apply Z.bits_above_log2; [lia |].
    apply Z.lt_le_trans with 8; [| lia].
    apply Z.log2_lt_pow2; lia.
Qed.

Lemma chips_nchans_nonneg (t : pca_type) : 0 <= nchans (chips t).
Proof. destruct (chips_nchans_range t) as [E | [E | E]]; rewrite E; lia. Qed.

(** The machine [pca954x_irq_handler] returns. *)
Lemma irq_handler_state (m : machine) :
  (pca954x_irq_handler m).2 =
    set_nested
      (nested m ++
       if smbus (bus m) read_byte <? 0 then []
       else map (irq_linear_revmap (irq (priv m)))
              (status_channels (smbus (bus m) read_byte)
                 (nchans (chips (chip (priv m))))))
      (set_bus (bus m ++ [read_byte]) m).
Proof.
  unfold pca954x_irq_handler, transfer.
  destruct (smbus (bus m) read_byte <? 0).
  - cbn [snd]. rewrite app_nil_r. reflexivity.
  - rewrite irq_handler_loop_spec by lia. cbn [snd priv set_bus chip nested irq].
    rewrite Z2Nat.id by apply chips_nchans_nonneg. reflexivity.
Qed.

(** X4: [pca954x_irq_handler] issues one transfer, the status read, and
    changes nothing of the instance or its adapters.  The status being a
    byte, only its bits 4 to 7 can report a channel: however many channels
    the chip has, no channel from 4 on is ever dispatched, and one call
    raises at most four nested interrupts. *)
Theorem irq_handler_byte_status (m : machine) :
  0 <= smbus (bus m) read_byte < 256 ->
  priv (pca954x_irq_handler m).2 = priv m
  /\ adapter (pca954x_irq_handler m).2 = adapter m
  /\ bus (pca954x_irq_handler m).2 = bus m ++ [read_byte]
  /\ nested (pca954x_irq_handler m).2 =
       nested m ++
       map (irq_linear_revmap (irq (priv m)))
         (status_channels (smbus (bus m) read_byte)
            (Z.min (nchans (chips (chip (priv m)))) 4))
  /\ (length (nested (pca954x_irq_handler m).2) <= length (nested m) + 4)%nat.
Proof.
  intros Hs. rewrite irq_handler_state.
  destruct (Z.ltb_spec (smbus (bus m) read_byte) 0) as [? | _]; [lia |].
  rewrite (status_channels_byte _ (nchans (chips (chip (priv m)))) Hs).
  repeat (split; [reflexivity |]).
  cbn [nested set_nested]. rewrite length_app, length_map.
  apply Nat.add_le_mono_l. unfold status_channels.
  etransitivity; [apply List.filter_length_le |].
  rewrite length_seqZ. lia.
Qed.

(** ** Removal *)


(** ** Sequences of calls *)

Lemma run_calls_cons (c : mux_call) (cs : list mux_call) (m : machine) :
  run_calls (c :: cs) m = run_calls cs (run_call m c).
Proof. reflexivity. Qed.

(** One call leaves the configuration alone and issues at most one
    transfer. *)
Lemma run_call_frame (m : machine) (c : mux_call) :
  chip (priv (run_call m c)) = chip (priv m)
  /\ deselect (priv (run_call m c)) = deselect (priv m)
  /\ irq (priv (run_call m c)) = irq (priv m)
  /\ adapter (run_call m c) = adapter m
  /\ exists ops, bus (run_call m c) = bus m ++ ops /\ (length ops <= 1)%nat.
Proof.
  destruct c as [chan | chan | |]; cbn [run_call].
  - rewrite select_chan_unfold. cbn. repeat split. eexists; split; [reflexivity | cbn; lia].
  - destruct (Z.eq_dec (Z.land (deselect (priv m)) (Z.shiftl 1 chan)) 0) as [E | E].
    + rewrite (deselect_mux_unmarked m chan E). cbn. repeat split.
      exists []. rewrite app_nil_r. split; [reflexivity | cbn; lia].
    + rewrite (deselect_mux_marked m chan E). cbn. repeat split.
      eexists; split; [reflexivity | cbn; lia].
  - rewrite irq_handler_state. cbn. repeat split.
    eexists; split; [reflexivity | cbn; lia].
  - cbn. repeat split. eexists; split; [reflexivity | cbn; lia].
Qed.

(** X6: whatever sequence of select, deselect, interrupt and resume calls
    runs on an instance, the chip, the idle-disconnect mask, the irq
    domain and the adapters stay as attach left them, and the bus sees
    what it had seen followed by at most one transfer per call. *)
Theorem run_calls_frame (cs : list mux_call) (m : machine) :
  chip (priv (run_calls cs m)) = chip (priv m)
  /\ deselect (priv (run_calls cs m)) = deselect (priv m)
  /\ irq (priv (run_calls cs m)) = irq (priv m)
  /\ adapter (run_calls cs m) = adapter m
  /\ exists ops, bus (run_calls cs m) = bus m ++ ops
                 /\ (length ops <= length cs)%nat.
Proof.
  revert m. induction cs as [| c cs IH]; intros m.
  - cbn. repeat split. exists []. rewrite app_nil_r. split; [reflexivity | cbn; lia].
  - rewrite run_calls_cons.
    destruct (IH (run_call m c)) as (H1 & H2 & H3 & H4 & ops2 & H5 & H6).
    destruct (run_call_frame m c) as (G1 & G2 & G3 & G4 & ops1 & G5 & G6).
    rewrite H1, H2, H3, H4, G1, G2, G3, G4. repeat split.
    exists (ops1 ++ ops2). rewrite H5, G5, <- app_assoc.
    split; [reflexivity |]. rewrite length_app. cbn [length]. lia.
Qed.

Lemma run_call_coherent (m : machine) (c : mux_call) :
  0 <= last_chan (priv m) < 256 ->
  last_chan_coherent m ->
  0 <= last_chan (priv (run_call m c)) < 256
  /\ last_chan_coherent (run_call m c).
Proof.
  intros Hr Hc. destruct c as [chan | chan | |]; cbn [run_call].
  - rewrite select_chan_unfold. cbn [snd].
    set (regval := pca954x_regval (chips (chip (priv m))) chan).
    assert (Hb : 0 <= regval < 256).
    { unfold regval, pca954x_regval, u8.
      destruct (chip_muxtype (chips (chip (priv m)))); apply Z.mod_pos_bound; lia. }
    destruct (Z.ltb_spec (smbus (bus m) (xfer_write regval)) 0) as [Hf | Hs].
    + split; [cbn; lia | left; reflexivity].
    + split; [exact Hb |]. right. exists (bus m), []. cbn.
      split; [reflexivity |]. split; [exact Hs | constructor].
  - destruct (Z.eq_dec (Z.land (deselect (priv m)) (Z.shiftl 1 chan)) 0) as [E | E].
    + rewrite (deselect_mux_unmarked m chan E). split; assumption.
    + rewrite (deselect_mux_marked m chan E). split; [cbn; lia | left; reflexivity].
  - rewrite irq_handler_state. split; [exact Hr |].
    destruct Hc as [Hz | (pre & post & Hb & Hs & Hp)]; [left; exact Hz |].
    right. exists pre, (post ++ [read_byte]). cbn.
    split; [rewrite Hb, <- app_assoc; reflexivity |].
    split; [exact Hs |]. apply Forall_app. split; [exact Hp | repeat constructor].
  - split; [cbn; lia | left; reflexivity].
Qed.

(** X7: [last_chan] stays a byte and stays in step with the bus over any
    sequence of calls: after the sequence it is 0, or it is the byte of
    the last write the bus has seen, a select write that did not fail. *)
Theorem run_calls_coherent (cs : list mux_call) (m : machine) :
  0 <= last_chan (priv m) < 256 ->
  last_chan_coherent m ->
  0 <= last_chan (priv (run_calls cs m)) < 256
  /\ last_chan_coherent (run_calls cs m).
Proof.
  revert m. induction cs as [| c cs IH]; intros m Hr Hc.
  - split; assumption.
  - rewrite run_calls_cons.
    destruct (run_call_coherent m c Hr Hc) as [Hr' Hc'].
    apply IH; assumption.
Qed.

(** ** Further properties of the probe *)

Lemma irq_setup_loop_ok (pl : platform) (n : nat) (c : Z) (dm dm' : gmap Z Z) :
  EINVAL <> 0 ->
  irq_setup_loop pl n c dm = (0, dm') ->
  forall j : Z,
    (c <= j < c + Z.of_nat n ->
       dm' !! j = Some (create_mapping pl j) /\ create_mapping pl j <> 0)
    /\ (~ c <= j < c + Z.of_nat n -> dm' !! j = dm !! j).
Proof.
  intros HE. revert c dm. induction n as [| n IH]; intros c dm H j.
  - cbn in H. injection H as <-. split; [lia | reflexivity].
  - cbn [irq_setup_loop] in H.
    destruct (Z.eqb_spec (create_mapping pl c) 0) as [E | E].
    + injection H as H _. lia.
    + destruct (IH _ _ H j) as [Hin Hout]. split.
      * intros Hj. destruct (Z.eq_dec j c) as [-> | Hne].
        -- rewrite Hout by lia. rewrite lookup_insert_eq. split; [reflexivity | exact E].
        -- apply Hin. lia.
      * intros Hj. rewrite Hout by lia. apply lookup_insert_ne. lia.
Qed.

(** What [pca954x_irq_setup] leaves when it returns 0. *)
Lemma irq_setup_ok (pl : platform) (m : machine) :
  ENODEV <> 0 -> EINVAL <> 0 ->
  (pca954x_irq_setup pl m).1 = 0 ->
  if (has_irq (chips (chip (priv m))) =? 0) || (client_irq pl <=? 0)
  then (pca954x_irq_setup pl m).2 = m
  else
    exists dm : gmap Z Z,
      (pca954x_irq_setup pl m).2 = set_irq (Some dm) m
      /\ forall j : Z,
           (0 <= j < nchans (chips (chip (priv m))) ->
              dm !! j = Some (create_mapping pl j)
              /\ create_mapping pl j <> 0
              /\ irq_linear_revmap (Some dm) j = create_mapping pl j)
           /\ (~ 0 <= j < nchans (chips (chip (priv m))) -> dm !! j = None).
Proof.
  intros HN HE. unfold pca954x_irq_setup.
  destruct ((has_irq (chips (chip (priv m))) =? 0) || (client_irq pl <=? 0));
    [reflexivity |].
  destruct (domain_add_ok pl); cbn [negb]; [| cbn; lia].
  destruct (irq_setup_loop pl (Z.to_nat (nchans (chips (chip (priv m))))) 0 ∅)
    as [ret dm] eqn:El.
  cbn [fst snd]. intros ->. exists dm. split; [reflexivity |].
  intros j. destruct (irq_setup_loop_ok pl _ _ _ _ HE El j) as [Hin Hout].
  rewrite Z2Nat.id in Hin, Hout by apply chips_nchans_nonneg.
  split.
  - intros Hj. destruct (Hin ltac:(lia)) as [H1 H2].
    repeat split; [exact H1 | exact H2 |]. cbn. rewrite H1. reflexivity.
  - intros Hj. rewrite Hout by lia. apply lookup_empty.
Qed.

(** X8: when [pca954x_irq_setup] returns 0 for a chip with interrupts and
    a client with an interrupt line, the domain it leaves maps every
    channel below the channel count to the Linux irq
    [irq_create_mapping] gave for it, which is not 0, and maps nothing
    else; [irq_linear_revmap] then finds that irq for each channel.  For
    a chip without interrupts or a client without a line it returns 0
    and leaves the machine as it is. *)
Theorem irq_setup_maps_channels (pl : platform) (m : machine) :
  ENODEV <> 0 -> EINVAL <> 0 ->
  (pca954x_irq_setup pl m).1 = 0 ->
  if (has_irq (chips (chip (priv m))) =? 0) || (client_irq pl <=? 0)
  then (pca954x_irq_setup pl m).2 = m
  else
    exists dm : gmap Z Z,
      (pca954x_irq_setup pl m).2 = set_irq (Some dm) m
      /\ forall j : Z,
           (0 <= j < nchans (chips (chip (priv m))) ->
              dm !! j = Some (create_mapping pl j)
              /\ create_mapping pl j <> 0
              /\ irq_linear_revmap (Some dm) j = create_mapping pl j)
           /\ (~ 0 <= j < nchans (chips (chip (priv m))) -> dm !! j = None).
Proof. exact (irq_setup_ok pl m). Qed.

Lemma u8_range (x : Z) : 0 <= u8 x < 256.
Proof. unfold u8. apply Z.mod_pos_bound. lia. Qed.

Lemma u8_testbit (x i : Z) :
  0 <= i -> Z.testbit (u8 x) i = (i <? 8) && Z.testbit x i.
Proof.
  intros Hi. unfold u8. change 256 with (2 ^ 8).
  destruct (Z.ltb_spec i 8).
  - rewrite Z.mod_pow2_bits_low by lia. reflexivity.
  - rewrite Z.mod_pow2_bits_high by lia. reflexivity.
Qed.

Lemma byte_testbit_high (d i : Z) : 0 <= d < 256 -> 8 <= i -> Z.testbit d i = false.
Proof.
  intros Hd Hi. destruct (Z.eq_dec d 0) as [-> | Hz]; [apply Z.bits_0 |].
  apply Z.bits_above_log2; [lia |].
  apply Z.lt_le_trans with 8; [| lia]. apply Z.log2_lt_pow2; lia.
Qed.

(** One update of [data->deselect] in the adapter loop, bit by bit. *)
Lemma deselect_step_bits (d num i : Z) (b : bool) :
  0 <= d < 256 -> 0 <= num -> 0 <= i ->
  Z.testbit (u8 (Z.lor d (Z.shiftl (Z.b2z b) num))) i =
    Z.testbit d i || ((i =? num) && (i <? 8) && b).
Proof.
  intros Hd Hn Hi. rewrite u8_testbit, Z.lor_spec, Z.shiftl_spec by lia.
  destruct (Z.ltb_spec i 8) as [Hlt | Hge].
  - cbn [andb]. f_equal. destruct (Z.eqb_spec i num) as [-> | Hne].
    + rewrite Z.sub_diag. destruct b; reflexivity.
    + cbn [andb]. destruct (Z.lt_ge_cases i num).
      * apply Z.testbit_neg_r. lia.
      * destruct b; [| apply Z.bits_0].
        apply (Z.bits_above_log2 1); cbn; lia.
  - rewrite (byte_testbit_high d i Hd Hge). cbn.
    rewrite andb_false_r. reflexivity.
Qed.

(** One iteration of the adapter loop, in terms of [probe_mode],
    [probe_adapter] and [probe_idle_disconnect]. *)
Lemma add_adapters_step (pl : platform) (n : nat) (num : Z) (m : machine) :
  probe_add_adapters pl (of_idle_disconnect pl) (S n) num m =
    match pdata pl, probe_mode pl num with
    | Some _, None => (0, m)
    | _, _ =>
        let m1 := set_deselect
                    (u8 (Z.lor (deselect (priv m))
                           (Z.shiftl (Z.b2z (probe_idle_disconnect pl num)) num))) m in
        if add_adapter pl (adapter m1) (probe_adapter pl num) =? 0 then
          probe_add_adapters pl (of_idle_disconnect pl) n (num + 1)
            (set_adapter (adapter m1 ++ [probe_adapter pl num]) m1)
        else (add_adapter pl (adapter m1) (probe_adapter pl num), m1)
    end.
Proof.
  cbn [probe_add_adapters]. unfold probe_idle_disconnect, probe_adapter, probe_mode.
  destruct (pdata pl) as [modes |]; [destruct (modes !! Z.to_nat num) |];
    reflexivity.
Qed.

(** The adapter loop when it ends without a failure: the adapters of
    the channels it went through, in order, and the bits of
    [data->deselect] it set. *)
Lemma add_adapters_ok (pl : platform) (n : nat) (num : Z) (m m' : machine) :
  probe_add_adapters pl (of_idle_disconnect pl) n num m = (0, m') ->
  0 <= num -> 0 <= deselect (priv m) < 256 ->
  exists k : nat,
    adapter m' = adapter m ++ map (probe_adapter pl) (seqZ num (Z.of_nat k))
    /\ (pdata pl = None -> k = n)
    /\ (forall modes, pdata pl = Some modes ->
          k = Nat.min n (length modes - Z.to_nat num))
    /\ 0 <= deselect (priv m') < 256
    /\ forall i, 0 <= i ->
         Z.testbit (deselect (priv m')) i =
           Z.testbit (deselect (priv m)) i
           || ((num <=? i) && (i <? num + Z.of_nat k) && (i <? 8)
               && probe_idle_disconnect pl i).
Proof.
  revert num m. induction n as [| n IH]; intros num m H Hnum Hd.
  - cbn in H. injection H as <-. exists O.
    rewrite seqZ_nil by (cbn; lia). cbn [map]. rewrite app_nil_r.
    split; [reflexivity |]. split; [reflexivity |].
    split; [intros; lia |]. split; [exact Hd |].
    intros i Hi. destruct (Z.leb_spec num i), (Z.ltb_spec i (num + Z.of_nat 0));
      try lia; cbn; rewrite orb_false_r; reflexivity.
  - rewrite add_adapters_step in H.
    assert (Hstop : forall modes, pdata pl = Some modes -> probe_mode pl num = None ->
              (0, m) = (0, m') ->
              exists k : nat,
                adapter m' = adapter m ++ map (probe_adapter pl) (seqZ num (Z.of_nat k))
                /\ (pdata pl = None -> k = S n)
                /\ (forall modes, pdata pl = Some modes ->
                      k = Nat.min (S n) (length modes - Z.to_nat num))
                /\ 0 <= deselect (priv m') < 256
                /\ forall i, 0 <= i ->
                     Z.testbit (deselect (priv m')) i =
                       Z.testbit (deselect (priv m)) i
                       || ((num <=? i) && (i <? num + Z.of_nat k) && (i <? 8)
                           && probe_idle_disconnect pl i)).
    { intros modes Hpd Hmode Heq. injection Heq as <-. exists O.
      rewrite seqZ_nil by (cbn; lia). cbn [map]. rewrite app_nil_r.
      split; [reflexivity |]. split; [congruence |].
      split.
      - intros modes' Hpd'. unfold probe_mode in Hmode. rewrite Hpd in Hmode.
        apply lookup_ge_None in Hmode. assert (modes' = modes) by congruence.
        subst. lia.
      - split; [exact Hd |]. intros i Hi.
        destruct (Z.leb_spec num i), (Z.ltb_spec i (num + Z.of_nat 0));
          try lia; cbn; rewrite orb_false_r; reflexivity. }
    assert (Hgo :
      (let m1 := set_deselect
                   (u8 (Z.lor (deselect (priv m))
                          (Z.shiftl (Z.b2z (probe_idle_disconnect pl num)) num))) m in
       if add_adapter pl (adapter m1) (probe_adapter pl num) =? 0 then
         probe_add_adapters pl (of_idle_disconnect pl) n (num + 1)
           (set_adapter (adapter m1 ++ [probe_adapter pl num]) m1)
       else (add_adapter pl (adapter m1) (probe_adapter pl num), m1)) = (0, m') ->
      (forall modes, pdata pl = Some modes -> (Z.to_nat num < length modes)%nat) ->
      exists k : nat,
        adapter m' = adapter m ++ map (probe_adapter pl) (seqZ num (Z.of_nat k))
        /\ (pdata pl = None -> k = S n)
        /\ (forall modes, pdata pl = Some modes ->
              k = Nat.min (S n) (length modes - Z.to_nat num))
        /\ 0 <= deselect (priv m') < 256
        /\ forall i, 0 <= i ->
             Z.testbit (deselect (priv m')) i =
               Z.testbit (deselect (priv m)) i
               || ((num <=? i) && (i <? num + Z.of_nat k) && (i <? 8)
                   && probe_idle_disconnect pl i)).
    { cbn zeta. intros Hrun Hlen.
      destruct (Z.eqb_spec (add_adapter pl
        (adapter (set_deselect (u8 (Z.lor (deselect (priv m))
           (Z.shiftl (Z.b2z (probe_idle_disconnect pl num)) num))) m))
        (probe_adapter pl num)) 0) as [_ | Hne];
        [| injection Hrun as Hrun _; contradiction].
      apply IH in Hrun; [| lia | cbn; apply u8_range].
      destruct Hrun as (k & Ha & Hnone & Hsome & Hrange & Hbits).
      exists (S k). cbn in Ha.
      split.
      { rewrite Ha, <- app_assoc. f_equal.
        rewrite (seqZ_cons num) by lia.
        replace (Z.pred (Z.of_nat (S k))) with (Z.of_nat k) by lia.
        replace (Z.succ num) with (num + 1) by lia. reflexivity. }
      split; [intros Hpd; rewrite (Hnone Hpd); reflexivity |].
      split.
      { intros modes Hpd. specialize (Hsome modes Hpd). specialize (Hlen modes Hpd).
        replace (Z.to_nat (num + 1)) with (S (Z.to_nat num)) in Hsome by lia. lia. }
      split; [exact Hrange |].
      intros i Hi. rewrite (Hbits i Hi).
      cbn [priv deselect set_deselect set_priv set_adapter].
      rewrite deselect_step_bits by lia.
      destruct (Z.eqb_spec i num) as [-> | Hne].
      - destruct (Z.leb_spec (num + 1) num), (Z.leb_spec num num),
          (Z.ltb_spec num (num + Z.of_nat (S k))); try lia.
        cbn [andb]. rewrite orb_false_r. reflexivity.
      - cbn [andb]. rewrite orb_false_r.
        destruct (Z.leb_spec (num + 1) i), (Z.leb_spec num i),
          (Z.ltb_spec i (num + 1 + Z.of_nat k)),
          (Z.ltb_spec i (num + Z.of_nat (S k))); try lia; reflexivity. }
    destruct (pdata pl) as [modes |] eqn:Hpd.
    + destruct (probe_mode pl num) as [md |] eqn:Hmode.
      * apply Hgo; [exact H |]. intros modes' E. injection E as <-.
        unfold probe_mode in Hmode. rewrite Hpd in Hmode.
        apply lookup_lt_Some in Hmode. exact Hmode.
      * apply (Hstop modes); [reflexivity | reflexivity | exact H].
    + apply Hgo; [exact H | intros; discriminate].
Qed.

Lemma add_adapters_frame_env (pl : platform) (n : nat) (num : Z) (m : machine) :
  let r := probe_add_adapters pl (of_idle_disconnect pl) n num m in
  nested r.2 = nested m /\ reset_pulsed r.2 = reset_pulsed m
  /\ irq_requested r.2 = irq_requested m.
Proof.
  cbn zeta. revert num m. induction n as [| n IH]; intros num m.
  - cbn. auto.
  - rewrite add_adapters_step.
    destruct (pdata pl), (probe_mode pl num); cbn zeta; try (cbn; auto; fail);
      match goal with |- context [if ?c then _ else _] => destruct c end;
      try (cbn; auto; fail);
      match goal with |- context [probe_add_adapters _ _ n ?a ?b] =>
        destruct (IH a b) as (H1 & H2 & H3); rewrite H1, H2, H3; cbn; auto
      end.
Qed.

(** What [probe_attach] leaves when it returns 0 for a fresh instance. *)
Lemma probe_attach_ok (pl : platform) (m m' : machine) :
  ENODEV <> 0 -> EINVAL <> 0 ->
  probe_attach pl m = (0, m') ->
  chip (priv m) = probe_chip pl ->
  adapter m = [] -> deselect (priv m) = 0 -> irq (priv m) = None ->
  irq_requested m = false ->
  0 <= smbus (bus m) (write_byte 0)
  /\ bus m' = bus m ++ [write_byte 0]
  /\ last_chan (priv m') = 0
  /\ chip (priv m') = probe_chip pl
  /\ nested m' = nested m
  /\ reset_pulsed m' = reset_pulsed m
  /\ adapter m' = map (probe_adapter pl) (seqZ 0 (probe_nchannels pl))
  /\ (forall i, 0 <= i ->
        Z.testbit (deselect (priv m')) i =
          (i <? probe_nchannels pl) && probe_idle_disconnect pl i)
  /\ if (has_irq (chips (probe_chip pl)) =? 0) || (client_irq pl <=? 0)
     then irq (priv m') = None /\ irq_requested m' = false
     else exists dm : gmap Z Z,
            irq (priv m') = Some dm /\ irq_requested m' = true
            /\ request_irq pl = 0
            /\ forall j : Z,
                 (0 <= j < nchans (chips (probe_chip pl)) ->
                    dm !! j = Some (create_mapping pl j)
                    /\ create_mapping pl j <> 0
                    /\ irq_linear_revmap (Some dm) j = create_mapping pl j)
                 /\ (~ 0 <= j < nchans (chips (probe_chip pl)) -> dm !! j = None).
Proof.
  intros HN HE H Hchip Hnil Hdes Hirq Hreq.
  unfold probe_attach, transfer in H.
  destruct (Z.ltb_spec (smbus (bus m) (write_byte 0)) 0) as [Hf | Hs];
    [injection H as H _; lia |].
  set (m2 := set_last_chan 0 (set_bus (bus m ++ [write_byte 0]) m)) in H.
  pose proof (irq_setup_ok pl m2 HN HE) as Hset.
  destruct (irq_setup_frame pl m2) as [d Hd].
  destruct (pca954x_irq_setup pl m2) as [ret m3].
  cbn [fst snd] in Hset, Hd. subst m3.
  destruct (Z.eqb_spec ret 0) as [-> | Hne]; cbn [negb] in H;
    [| injection H as H _; contradiction].
  specialize (Hset eq_refl).
  pose proof (add_adapters_frame pl (of_idle_disconnect pl)
    (Z.to_nat (nchans (chips (chip (priv (set_irq d m2)))))) 0 (set_irq d m2)) as F.
  pose proof (add_adapters_frame_env pl
    (Z.to_nat (nchans (chips (chip (priv (set_irq d m2)))))) 0 (set_irq d m2)) as G.
  cbn zeta in F, G.
  destruct (probe_add_adapters pl (of_idle_disconnect pl)
    (Z.to_nat (nchans (chips (chip (priv (set_irq d m2)))))) 0 (set_irq d m2))
    as [ret' m4] eqn:Ea.
  cbn [fst snd] in F, G.
  destruct F as (F1 & F2 & F3 & F4 & _). destruct G as (G1 & G2 & G3).
  cbn in F1, F2, F3, F4, G1, G2, G3.
  destruct (Z.eqb_spec ret' 0) as [-> | Hne]; cbn [negb] in H;
    [| injection H as H _; contradiction].
  apply add_adapters_ok in Ea; [| lia | cbn; rewrite Hdes; lia].
  destruct Ea as (k & Ha & Hnone & Hsome & _ & Hbits).
  subst m2. cbn in Ha, Hbits, Hnone, Hsome, F1, F2, F3, F4, G1, G2, G3.
  cbn [chip priv set_last_chan set_bus set_priv] in Hset.
  rewrite Hnil in Ha. cbn in Ha. rewrite Hdes in Hbits.
  rewrite Hchip in *.
  assert (Hk : Z.of_nat k = probe_nchannels pl).
  { unfold probe_nchannels. pose proof (chips_nchans_nonneg (probe_chip pl)).
    destruct (pdata pl) as [modes |].
    - rewrite (Hsome modes eq_refl). lia.
    - rewrite (Hnone eq_refl). lia. }
  assert (Hk8 : probe_nchannels pl <= 8).
  { assert (nchans (chips (probe_chip pl)) <= 8)
      by (destruct (chips_nchans_range (probe_chip pl)) as [E | [E | E]];
          rewrite E; lia).
    unfold probe_nchannels. destruct (pdata pl); lia. }
  rewrite Hk in Ha, Hbits.
  assert (Hbits' : forall i, 0 <= i ->
            Z.testbit (deselect (priv m4)) i =
              (i <? probe_nchannels pl) && probe_idle_disconnect pl i).
  { intros i Hi. rewrite (Hbits i Hi), Z.bits_0. cbn [orb].
    destruct (Z.leb_spec 0 i), (Z.ltb_spec i (0 + probe_nchannels pl)),
      (Z.ltb_spec i (probe_nchannels pl)), (Z.ltb_spec i 8); try lia; reflexivity. }
  assert (Hcommon : forall m5 : machine,
            priv m5 = priv m4 -> adapter m5 = adapter m4 -> bus m5 = bus m4 ->
            nested m5 = nested m4 -> reset_pulsed m5 = reset_pulsed m4 ->
            0 <= smbus (bus m) (write_byte 0)
            /\ bus m5 = bus m ++ [write_byte 0]
            /\ last_chan (priv m5) = 0
            /\ chip (priv m5) = probe_chip pl
            /\ nested m5 = nested m
            /\ reset_pulsed m5 = reset_pulsed m
            /\ adapter m5 = map (probe_adapter pl) (seqZ 0 (probe_nchannels pl))
            /\ (forall i, 0 <= i ->
                  Z.testbit (deselect (priv m5)) i =
                    (i <? probe_nchannels pl) && probe_idle_disconnect pl i)).
  { intros m5 E1 E2 E3 E4 E5. rewrite E1, E2, E3, E4, E5, F1, F2, F3, G1, G2.
    repeat split; try assumption; reflexivity. }
  assert (Hd' : d = irq (priv m4)) by (rewrite F4; reflexivity).
  destruct ((has_irq (chips (probe_chip pl)) =? 0) || (client_irq pl <=? 0)).
  - assert (Hdn : d = None).
    { apply (f_equal (fun x => irq (priv x))) in Hset. cbn in Hset.
      rewrite Hset. exact Hirq. }
    rewrite <- Hd', Hdn in H. injection H as <-.
    destruct (Hcommon m4) as (C1 & C2 & C3 & C4 & C5 & C6 & C7 & C8);
      try reflexivity.
    repeat (split; [assumption |]).
    split; [rewrite <- Hd'; exact Hdn | rewrite G3; exact Hreq].
  - destruct Hset as (dm & Hset & Hmap).
    assert (Hds : d = Some dm).
    { apply (f_equal (fun x => irq (priv x))) in Hset. exact Hset. }
    rewrite <- Hd', Hds in H.
    destruct (Z.eqb_spec (request_irq pl) 0) as [Hr | Hr]; cbn [negb] in H;
      [| injection H as H _; contradiction].
    injection H as <-.
    destruct (Hcommon (set_irq_requested true m4))
      as (C1 & C2 & C3 & C4 & C5 & C6 & C7 & C8); try reflexivity.
    repeat (split; [assumption |]).
    exists dm. cbn [irq priv irq_requested set_irq_requested].
    split; [rewrite F4; exact Hds |]. split; [reflexivity |].
    split; [exact Hr | exact Hmap].
Qed.

Lemma check_identity_nonzero (pl : platform) (t : pca_type) (r : Z) :
  ENODEV <> 0 -> probe_check_identity pl t = Some r -> r <> 0.
Proof.
  intros HN. unfold probe_check_identity.
  destruct (manufacturer_id (chip_id (chips t)) =? I2C_DEVICE_ID_NONE);
    [discriminate |].
  destruct (device_id pl) as [ret id].
  destruct (Z.eqb_spec ret 0) as [-> | Hne]; cbn [negb andb].
  - destruct (negb (manufacturer_id id =? manufacturer_id (chip_id (chips t)))
              || negb (part_id id =? part_id (chip_id (chips t))));
      [| discriminate].
    intros [= <-]. lia.
  - destruct (negb (ret =? - EOPNOTSUPP)); [| discriminate].
    intros [= <-]. exact Hne.
Qed.

(** A probe that returns 0 went through the whole attach sequence. *)
Lemma probe_returns_zero (pl : platform) (bus0 : list bus_op) (m' : machine) :
  ENODEV <> 0 -> ENOMEM <> 0 ->
  (forall err, reset_gpio pl = gpio_error err -> err <> 0) ->
  pca954x_probe pl bus0 = (0, m') ->
  probe_attach pl (probe_reset (reset_gpio pl) (probe_alloc pl bus0)) = (0, m').
Proof.
  intros HN HM Hg. unfold pca954x_probe.
  destruct (smbus_byte_functionality pl); cbn [negb]; [| intros [= H _]; lia].
  destruct (mux_alloc_ok pl); cbn [negb]; [| intros [= H _]; lia].
  assert (Hc : forall g, chip (priv (probe_reset g (probe_alloc pl bus0)))
                         = probe_chip pl) by (intros []; reflexivity).
  destruct (reset_gpio pl) as [err | |] eqn:Eg.
  - intros [= H _]. exact (False_ind _ (Hg err eq_refl H)).
  - rewrite Hc.
    destruct (probe_check_identity pl (probe_chip pl)) as [r |] eqn:Ei;
      [| exact (fun H => H)].
    intros [= H _]. exact (False_ind _ (check_identity_nonzero _ _ _ HN Ei H)).
  - rewrite Hc.
    destruct (probe_check_identity pl (probe_chip pl)) as [r |] eqn:Ei;
      [| exact (fun H => H)].
    intros [= H _]. exact (False_ind _ (check_identity_nonzero _ _ _ HN Ei H)).
Qed.

Lemma probe_reset_fresh (g : gpio_lookup) (pl : platform) (bus0 : list bus_op) :
  chip (priv (probe_reset g (probe_alloc pl bus0))) = probe_chip pl
  /\ adapter (probe_reset g (probe_alloc pl bus0)) = []
  /\ deselect (priv (probe_reset g (probe_alloc pl bus0))) = 0
  /\ last_chan (priv (probe_reset g (probe_alloc pl bus0))) = 0
  /\ irq (priv (probe_reset g (probe_alloc pl bus0))) = None
  /\ irq_requested (probe_reset g (probe_alloc pl bus0)) = false
  /\ bus (probe_reset g (probe_alloc pl bus0)) = bus0
  /\ nested (probe_reset g (probe_alloc pl bus0)) = [].
Proof. destruct g; repeat split. Qed.

Lemma probe_adapter_chan_ids (pl : platform) (l : list Z) :
  map chan_id (map (probe_adapter pl) l) = l.
Proof.
  induction l as [| j l IH]; [reflexivity |]. cbn [map]. rewrite IH. f_equal.
  unfold probe_adapter. destruct (probe_mode pl j); reflexivity.
Qed.

(** X9: a probe that returns 0 has written the byte 0 to the register
    once, successfully, and nothing else; it leaves [last_chan] at 0 and
    one adapter per channel, in channel order from 0, for all channels of
    the chip or, with platform data, for as many as there are modes, each
    with the adapter number and class the platform data gives it. *)
Theorem probe_success_channels (pl : platform) (bus0 : list bus_op)
    (m' : machine) :
  ENODEV <> 0 -> ENOMEM <> 0 -> EINVAL <> 0 ->
  (forall err, reset_gpio pl = gpio_error err -> err <> 0) ->
  pca954x_probe pl bus0 = (0, m') ->
  0 <= smbus bus0 (write_byte 0)
  /\ bus m' = bus0 ++ [write_byte 0]
  /\ last_chan (priv m') = 0
  /\ chip (priv m') = probe_chip pl
  /\ adapter m' = map (probe_adapter pl) (seqZ 0 (probe_nchannels pl))
  /\ map chan_id (adapter m') = seqZ 0 (probe_nchannels pl)
  /\ nested m' = [].
Proof.
  intros HN HM HE Hg H. apply (probe_returns_zero _ _ _ HN HM Hg) in H.
  destruct (probe_reset_fresh (reset_gpio pl) pl bus0)
    as (R1 & R2 & R3 & R4 & R5 & R6 & R7 & R8).
  destruct (probe_attach_ok _ _ _ HN HE H R1 R2 R3 R5 R6)
    as (A1 & A2 & A3 & A4 & A5 & _ & A7 & _).
  rewrite R7 in A1, A2. rewrite R8 in A5.
  repeat (split; [assumption |]). split; [| assumption].
  rewrite A7. apply probe_adapter_chan_ids.
Qed.

(** X10: after a probe that returned 0, the idle-disconnect mask marks
    exactly the channels that got an adapter and whose platform mode or
    device-tree property asks for it: [pca954x_deselect_mux] on such a
    channel writes the byte 0, and on any other channel it returns 0
    without touching the machine. *)
Theorem probe_success_idle_disconnect (pl : platform) (bus0 : list bus_op)
    (m' : machine) (chan : Z) :
  ENODEV <> 0 -> ENOMEM <> 0 -> EINVAL <> 0 ->
  (forall err, reset_gpio pl = gpio_error err -> err <> 0) ->
  pca954x_probe pl bus0 = (0, m') ->
  0 <= chan ->
  Z.testbit (deselect (priv m')) chan =
    (chan <? probe_nchannels pl) && probe_idle_disconnect pl chan
  /\ if (chan <? probe_nchannels pl) && probe_idle_disconnect pl chan
     then pca954x_deselect_mux m' chan =
            (smbus (bus m') (xfer_write 0),
             set_bus (bus m' ++ [xfer_write 0]) (set_last_chan 0 m'))
     else pca954x_deselect_mux m' chan = (0, m').
Proof.
  intros HN HM HE Hg H Hc. apply (probe_returns_zero _ _ _ HN HM Hg) in H.
  destruct (probe_reset_fresh (reset_gpio pl) pl bus0)
    as (R1 & R2 & R3 & R4 & R5 & R6 & R7 & R8).
  destruct (probe_attach_ok _ _ _ HN HE H R1 R2 R3 R5 R6)
    as (_ & _ & _ & _ & _ & _ & _ & Hbits & _).
  specialize (Hbits chan Hc). split; [exact Hbits |].
  pose proof (land_bit_testbit (deselect (priv m')) chan Hc) as Hl.
  unfold BIT in Hl. rewrite Hbits in Hl.
  destruct ((chan <? probe_nchannels pl) && probe_idle_disconnect pl chan).
  - apply deselect_mux_marked. apply negb_true_iff, Z.eqb_neq in Hl. exact Hl.
  - apply deselect_mux_unmarked. apply negb_false_iff, Z.eqb_eq in Hl. exact Hl.
Qed.

Lemma status_channels_range (status n i : Z) :
  In i (status_channels status n) -> 0 <= i < n.
Proof. intros H. apply status_channels_In in H. tauto. Qed.

(** X11: after a probe that returned 0 on a chip with interrupts and a
    client with an interrupt line, the handler is bound to that line and
    a status byte read by [pca954x_irq_handler] raises, for each channel
    it reports, the Linux irq [irq_create_mapping] gave for that channel
    at attach, none of them 0.  Without interrupt support or without a
    line there is no irq domain and no handler is bound. *)
Theorem probe_success_interrupts (pl : platform) (bus0 : list bus_op)
    (m' : machine) :
  ENODEV <> 0 -> ENOMEM <> 0 -> EINVAL <> 0 ->
  (forall err, reset_gpio pl = gpio_error err -> err <> 0) ->
  pca954x_probe pl bus0 = (0, m') ->
  if (has_irq (chips (probe_chip pl)) =? 0) || (client_irq pl <=? 0)
  then irq (priv m') = None /\ irq_requested m' = false
  else
    irq_requested m' = true /\ request_irq pl = 0
    /\ (forall j, 0 <= j < nchans (chips (probe_chip pl)) ->
          irq_linear_revmap (irq (priv m')) j = create_mapping pl j
          /\ create_mapping pl j <> 0)
    /\ (0 <= smbus (bus m') read_byte ->
         nested (pca954x_irq_handler m').2 =
           map (create_mapping pl)
             (status_channels (smbus (bus m') read_byte)
                (nchans (chips (probe_chip pl))))).
Proof.
  intros HN HM HE Hg H. apply (probe_returns_zero _ _ _ HN HM Hg) in H.
  destruct (probe_reset_fresh (reset_gpio pl) pl bus0)
    as (R1 & R2 & R3 & R4 & R5 & R6 & R7 & R8).
  destruct (probe_attach_ok _ _ _ HN HE H R1 R2 R3 R5 R6)
    as (_ & _ & _ & A4 & A5 & _ & _ & _ & Hirq).
  destruct ((has_irq (chips (probe_chip pl)) =? 0) || (client_irq pl <=? 0));
    [exact Hirq |].
  destruct Hirq as (dm & Hd & Hrq & Hr0 & Hmap).
  split; [exact Hrq |]. split; [exact Hr0 |]. split.
  - intros j Hj. rewrite Hd. destruct (Hmap j) as [Hin _].
    destruct (Hin Hj) as (_ & Hnz & Hrev). split; assumption.
  - intros Hs. rewrite irq_handler_state. cbn [nested set_nested].
    destruct (Z.ltb_spec (smbus (bus m') read_byte) 0) as [? | _]; [lia |].
    rewrite A5, R8, A4. cbn [app]. apply List.map_ext_in.
    intros i Hi. apply status_channels_range in Hi. rewrite Hd.
    destruct (Hmap i) as [Hin _]. destruct (Hin Hi) as (_ & _ & Hrev). exact Hrev.
Qed.




(** X13: with identity data in the resolved descriptor, an identity read
    that fails with anything but [-EOPNOTSUPP] makes the probe return that
    very error before it has written to the register or built an adapter;
    an identity read that gives the manufacturer and part of the
    descriptor, whatever the die revision, lets the probe go on to the
    register write. *)
Theorem probe_identity_read_error (pl : platform) (bus0 : list bus_op) :
  smbus_byte_functionality pl = true ->
  mux_alloc_ok pl = true ->
  (forall err, reset_gpio pl <> gpio_error err) ->
  manufacturer_id (chip_id (chips (probe_chip pl))) <> I2C_DEVICE_ID_NONE ->
  (forall (ret : Z) (id : i2c_device_identity),
     device_id pl = (ret, id) -> ret <> 0 -> ret <> - EOPNOTSUPP ->
     (pca954x_probe pl bus0).1 = ret
     /\ bus (pca954x_probe pl bus0).2 = bus0
     /\ adapter (pca954x_probe pl bus0).2 = [])
  /\ (forall id : i2c_device_identity,
       device_id pl = (0, id) ->
       manufacturer_id id = manufacturer_id (chip_id (chips (probe_chip pl))) ->
       part_id id = part_id (chip_id (chips (probe_chip pl))) ->
       pca954x_probe pl bus0 =
         probe_attach pl (probe_reset (reset_gpio pl) (probe_alloc pl bus0))).
Proof.
  intros Hf Ha Hg Hid.
  assert (Hc : chip (priv (probe_reset (reset_gpio pl) (probe_alloc pl bus0)))
               = probe_chip pl) by (destruct (reset_gpio pl); reflexivity).
  assert (Hp : pca954x_probe pl bus0 =
    match probe_check_identity pl (probe_chip pl) with
    | Some r => (r, probe_reset (reset_gpio pl) (probe_alloc pl bus0))
    | None => probe_attach pl (probe_reset (reset_gpio pl) (probe_alloc pl bus0))
    end).
  { unfold pca954x_probe. rewrite Hf, Ha. cbn [negb].
    destruct (reset_gpio pl) eqn:Eg; [exfalso; exact (Hg _ eq_refl) | |];
      rewrite Hc; reflexivity. }
  rewrite Hp. unfold probe_check_identity.
  destruct (Z.eqb_spec (manufacturer_id (chip_id (chips (probe_chip pl))))
              I2C_DEVICE_ID_NONE) as [E | _]; [contradiction |].
  split.
  - intros ret id Hd Hnz Hns. rewrite Hd.
    apply Z.eqb_neq in Hnz, Hns. rewrite Hnz, Hns. cbn [negb andb fst snd].
    destruct (reset_gpio pl); repeat split.
  - intros id Hd Hm Hpart. rewrite Hd, Hm, Hpart, !Z.eqb_refl. reflexivity.
Qed.

End Driver.

(** ** Device tables *)

(** X14: the id table and the device-tree match table list the same
    twelve parts in the same order: the compatible of a part is [nxp,]
    followed by its id-table name, and both tables send it to the same
    entry of [chips[]].  No name is listed twice and every entry of
    [chips[]] is reachable. *)
Theorem device_tables_agree :
  map (fun e => (String.append "nxp," e.1, e.2)) pca954x_id = pca954x_of_match
  /\ NoDup (map fst pca954x_id)
  /\ forall t : pca_type, In t (map snd pca954x_id).
Proof.
  split; [reflexivity |]. split.
  - apply (bool_decide_unpack (NoDup (map fst pca954x_id))). vm_compute. exact I.
  - intros t. destruct t; cbn; tauto.
Qed.

(** ** DP83867 *)

Section Dp83867Properties.

Import Dp83867.

Variable PHY_INTERRUPT_ENABLED : Z.
Variable mdio_bus : list mdio_op -> mdio_op -> Z.

Lemma u16_range (x : Z) : 0 <= u16 x < 65536.
Proof. unfold u16. apply Z.mod_pos_bound. lia. Qed.

Lemma u16_testbit (x i : Z) :
  0 <= i -> Z.testbit (u16 x) i = (i <? 16) && Z.testbit x i.
Proof.
  intros Hi. unfold u16. change 65536 with (2 ^ 16).
  destruct (Z.ltb_spec i 16).
  - rewrite Z.mod_pow2_bits_low by lia. reflexivity.
  - rewrite Z.mod_pow2_bits_high by lia. reflexivity.
Qed.

Lemma micr_enable_bits_high (i : Z) :
  16 <= i -> Z.testbit micr_enable_bits i = false.
Proof.
  intros Hi. apply Z.bits_above_log2; [vm_compute; discriminate |].
  change (Z.log2 micr_enable_bits) with 15. lia.
Qed.

(** X15: with interrupts enabled, [dp83867_config_intr] reads the
    interrupt control register and writes it back with the six enable
    bits (15, 14, 13, 11, 10 and 4) set and every other bit as it was
    read; when the read fails it returns the error and writes nothing.
    With interrupts not enabled it writes 0 without reading. *)
Theorem dp83867_config_intr_bits (phydev : phy_device) :
  (interrupts phydev <> PHY_INTERRUPT_ENABLED ->
     mdio (dp83867_config_intr PHY_INTERRUPT_ENABLED mdio_bus phydev).2 =
       mdio phydev ++ [phy_write MII_DP83867_MICR 0])
  /\ (interrupts phydev = PHY_INTERRUPT_ENABLED ->
       mdio_bus (mdio phydev) (phy_read MII_DP83867_MICR) < 0 ->
       (dp83867_config_intr PHY_INTERRUPT_ENABLED mdio_bus phydev).1 =
         mdio_bus (mdio phydev) (phy_read MII_DP83867_MICR)
       /\ mdio (dp83867_config_intr PHY_INTERRUPT_ENABLED mdio_bus phydev).2 =
            mdio phydev ++ [phy_read MII_DP83867_MICR])
  /\ (interrupts phydev = PHY_INTERRUPT_ENABLED ->
       0 <= mdio_bus (mdio phydev) (phy_read MII_DP83867_MICR) ->
       exists v : Z,
         mdio (dp83867_config_intr PHY_INTERRUPT_ENABLED mdio_bus phydev).2 =
           mdio phydev ++ [phy_read MII_DP83867_MICR; phy_write MII_DP83867_MICR v]
         /\ 0 <= v < 65536
         /\ Z.land v 0xEC10 = 0xEC10
         /\ forall i, 0 <= i < 16 -> Z.testbit 0xEC10 i = false ->
              Z.testbit v i =
                Z.testbit (mdio_bus (mdio phydev) (phy_read MII_DP83867_MICR)) i).
Proof.
  unfold dp83867_config_intr, access. split; [| split].
  - intros H. apply Z.eqb_neq in H. rewrite H. reflexivity.
  - intros H Hs. apply Z.eqb_eq in H. apply Z.ltb_lt in Hs. rewrite H, Hs.
    split; reflexivity.
  - intros H Hs. apply Z.eqb_eq in H. rewrite H.
    destruct (Z.ltb_spec (mdio_bus (mdio phydev) (phy_read MII_DP83867_MICR)) 0)
      as [? | _]; [lia |].
    eexists. cbn [snd mdio]. split; [rewrite <- app_assoc; reflexivity |].
    split; [apply u16_range |]. split.
    + apply Z.bits_inj'. intros i Hi.
      rewrite Z.land_spec, u16_testbit, Z.lor_spec by lia.
      change 0xEC10 with micr_enable_bits.
      destruct (Z.ltb_spec i 16) as [_ | Hge].
      * cbn [andb]. destruct (Z.testbit micr_enable_bits i);
          [rewrite orb_true_r | rewrite andb_false_r]; reflexivity.
      * rewrite (micr_enable_bits_high i Hge). reflexivity.
    + intros i Hi Hz. rewrite u16_testbit, Z.lor_spec by lia.
      change (Z.testbit micr_enable_bits i) with (Z.testbit 0xEC10 i).
      rewrite Hz, orb_false_r.
      destruct (Z.ltb_spec i 16); [reflexivity | lia].
Qed.

(** X16: [dp83867_config_port_mirroring] always returns 0, also when the
    read or the write fails.  It reads CFG4 and writes it back once, with
    bit 0 set exactly when mirroring is to be enabled and every other bit
    as the 16-bit truncation of what the read returned. *)
Theorem dp83867_port_mirroring_bit (phydev : phy_device) :
  (dp83867_config_port_mirroring mdio_bus phydev).1 = 0
  /\ exists v : Z,
       mdio (dp83867_config_port_mirroring mdio_bus phydev).2 =
         mdio phydev ++ [phy_read_mmd DP83867_DEVADDR DP83867_CFG4;
                         phy_write_mmd DP83867_DEVADDR DP83867_CFG4 v]
       /\ 0 <= v < 65536
       /\ Z.testbit v 0 =
            (port_mirroring (phy_priv phydev) =? DP83867_PORT_MIRROING_EN)
       /\ forall i, 1 <= i ->
            Z.testbit v i =
              Z.testbit
                (u16 (mdio_bus (mdio phydev)
                        (phy_read_mmd DP83867_DEVADDR DP83867_CFG4))) i.
Proof.
  unfold dp83867_config_port_mirroring, access. cbn [fst snd mdio phy_priv].
  split; [reflexivity |]. eexists.
  split; [rewrite <- app_assoc; reflexivity |].
  set (r := u16 (mdio_bus (mdio phydev) (phy_read_mmd DP83867_DEVADDR DP83867_CFG4))).
  assert (Hr : forall i, 16 <= i -> Z.testbit r i = false).
  { intros i Hi. unfold r. rewrite u16_testbit by lia.
    destruct (Z.ltb_spec i 16); [lia | reflexivity]. }
  assert (H1 : forall i, 1 <= i -> Z.testbit DP83867_CFG4_PORT_MIRROR_EN i = false).
  { intros i Hi. apply Z.bits_above_log2; [vm_compute; discriminate |].
    change (Z.log2 DP83867_CFG4_PORT_MIRROR_EN) with 0. lia. }
  destruct (port_mirroring (phy_priv phydev) =? DP83867_PORT_MIRROING_EN).
  - split; [apply u16_range |]. split.
    + rewrite u16_testbit, Z.lor_spec by lia. cbn. apply orb_true_r.
    + intros i Hi. rewrite u16_testbit, Z.lor_spec, (H1 i Hi), orb_false_r by lia.
      destruct (Z.ltb_spec i 16); [reflexivity | symmetry; apply Hr; lia].
  - split; [apply u16_range |]. split.
    + rewrite u16_testbit, Z.land_spec, Z.lnot_spec by lia. cbn.
      apply andb_false_r.
    + intros i Hi.
      rewrite u16_testbit, Z.land_spec, Z.lnot_spec, (H1 i Hi), andb_true_r by lia.
      destruct (Z.ltb_spec i 16); [reflexivity | symmetry; apply Hr; lia].
Qed.

End Dp83867Properties.

(** ** Worked instances *)

(** Four-channel switch, every channel idle-disconnect: [select(2)] writes
    0b0100 and caches 4; [deselect(2)] then writes 0 and caches 0. *)
Example scenario_switch_select_deselect :
  let s := (pca954x_select_chan id_none id_nxp bus_ack sw4 2).2 in
  let d := (pca954x_deselect_mux bus_ack s 2).2 in
  bus s = [xfer_write 4] /\ last_chan (priv s) = 4
  /\ bus d = [xfer_write 4; xfer_write 0] /\ last_chan (priv d) = 0.
Proof. vm_compute. repeat split. Qed.

(** Eight-channel mux with enable pattern 0x8: [select(5)] writes 0xD. *)
Example scenario_mux_select :
  bus (pca954x_select_chan id_none id_nxp bus_ack mux8 5).2 = [xfer_write 0xD].
Proof. reflexivity. Qed.

(** Status byte 0b11010000 on a four-channel variant: channels 0, 2 and 3
    are dispatched and the handler reports the interrupt handled. *)
Example scenario_irq_status :
  status_channels 0xD0 4 = [0; 2; 3]
  /\ pca954x_irq_handler id_none id_nxp bus_ack sw4 =
       (IRQ_HANDLED, set_nested [64; 66; 67] (set_bus [read_byte] sw4)).
Proof. split; vm_compute; reflexivity. Qed.

(** A PCA9548 with three modes in its platform data gets three adapters,
    numbered as the platform data says, and the idle-disconnect mask 0b101. *)
Example scenario_truncated_probe :
  let r := pca954x_probe id_none id_nxp enodev enomem einval eopnotsupp
             bus_ack pca9548_platform [] in
  r.1 = 0 /\ map force_nr (adapter r.2) = [10; 11; 12]
  /\ deselect (priv r.2) = 5 /\ bus r.2 = [write_byte 0].
Proof. vm_compute. repeat split. Qed.

Lemma select_chan_encoding_witness :
  pca954x_regval (chips id_none id_nxp pca_9547) 5 = 0xD
  /\ bus (pca954x_select_chan id_none id_nxp bus_ack mux8 5).2 = [xfer_write 0xD].
Proof.
  apply (select_chan_encoding id_none id_nxp bus_ack pca_9547 mux8 5);
    [reflexivity | cbn; lia].
Defined.

Lemma select_regval_nonzero_witness :
  pca954x_regval (chips id_none id_nxp pca_9545) 0 <> 0
  /\ Z.testbit (pca954x_regval (chips id_none id_nxp pca_9545) 0) 0 = true.
Proof.
  apply (select_regval_nonzero id_none id_nxp pca_9545 0). cbn. lia.
Defined.

Lemma write_failure_resets_last_chan_witness :
  last_chan (priv (pca954x_select_chan id_none id_nxp bus_nak sw4 2).2) = 0
  /\ last_chan (priv (pca954x_select_chan id_none id_nxp bus_ack sw4 2).2) = 4
  /\ last_chan (priv (pca954x_deselect_mux bus_nak sw4 2).2) = 0
  /\ last_chan (priv (pca954x_deselect_mux bus_ack sw4 2).2) = 0.
Proof.
  pose proof (write_failure_resets_last_chan id_none id_nxp bus_nak sw4 2)
    as (Hsel & _ & Hdes & _).
  pose proof (write_failure_resets_last_chan id_none id_nxp bus_ack sw4 2)
    as (_ & Hok & _ & Hmark).
  split; [apply Hsel; reflexivity |].
  split; [apply Hok; vm_compute; discriminate |].
  split; [apply Hdes; reflexivity |].
  apply Hmark. vm_compute. discriminate.
Defined.

Lemma deselect_mux_bus_activity_witness :
  ((pca954x_deselect_mux bus_ack mux8 5).1 = 0
   /\ bus (pca954x_deselect_mux bus_ack mux8 5).2 = [])
  /\ bus (pca954x_deselect_mux bus_ack sw4 2).2 = [xfer_write 0].
Proof.
  split.
  - apply (deselect_mux_bus_activity bus_ack mux8 5). reflexivity.
  - apply (deselect_mux_bus_activity bus_ack sw4 2). vm_compute. discriminate.
Defined.

Lemma deselect_mux_fast_path_frame_witness :
  (pca954x_deselect_mux bus_nak mux8 5).2 = mux8
  /\ last_chan (priv (pca954x_deselect_mux bus_nak mux8 5).2) = 0xD.
Proof.
  apply (deselect_mux_fast_path_frame bus_nak mux8 5). reflexivity.
Defined.

Lemma irq_handler_dispatch_witness :
  ((pca954x_irq_handler id_none id_nxp bus_nak sw4).1 = IRQ_NONE
   /\ nested (pca954x_irq_handler id_none id_nxp bus_nak sw4).2 = [])
  /\ nested (pca954x_irq_handler id_none id_nxp bus_ack sw4).2 = [64; 66; 67]
  /\ (pca954x_irq_handler id_none id_nxp bus_ack sw4).1 = IRQ_HANDLED.
Proof.
  pose proof (irq_handler_dispatch id_none id_nxp bus_nak sw4) as (Hfail & _ & _).
  pose proof (irq_handler_dispatch id_none id_nxp bus_ack sw4) as (_ & Hok & _).
  split; [apply Hfail; reflexivity |].
  destruct Hok as (Hn & Hh & _); [vm_compute; discriminate |].
  split; [exact Hn |].
  apply Hh. vm_compute. discriminate.
Defined.

Lemma probe_identity_check_witness :
  ((pca954x_probe id_none id_nxp enodev enomem einval eopnotsupp bus_ack
      (pca9846_platform 0 (nxp_identity id_nxp 0x108)) []).1 = - enodev
   /\ adapter (pca954x_probe id_none id_nxp enodev enomem einval eopnotsupp bus_ack
                 (pca9846_platform 0 (nxp_identity id_nxp 0x108)) []).2 = []
   /\ bus (pca954x_probe id_none id_nxp enodev enomem einval eopnotsupp bus_ack
             (pca9846_platform 0 (nxp_identity id_nxp 0x108)) []).2 = [])
  /\ pca954x_probe id_none id_nxp enodev enomem einval eopnotsupp bus_ack
       (pca9846_platform (- eopnotsupp) (nxp_identity id_nxp 0)) [] =
     probe_attach id_none id_nxp enodev einval bus_ack
       (pca9846_platform (- eopnotsupp) (nxp_identity id_nxp 0))
       (probe_reset gpio_present
          (probe_alloc (pca9846_platform (- eopnotsupp) (nxp_identity id_nxp 0)) [])).
Proof.
  split.
  - apply (probe_identity_check id_none id_nxp enodev enomem einval eopnotsupp
             bus_ack (pca9846_platform 0 (nxp_identity id_nxp 0x108)) []
             eq_refl eq_refl ltac:(discriminate) ltac:(vm_compute; discriminate))
      with (id := nxp_identity id_nxp 0x108);
      [reflexivity | right; vm_compute; discriminate].
  - apply (probe_identity_check id_none id_nxp enodev enomem einval eopnotsupp
             bus_ack (pca9846_platform (- eopnotsupp) (nxp_identity id_nxp 0)) []
             eq_refl eq_refl ltac:(discriminate) ltac:(vm_compute; discriminate))
      with (id := nxp_identity id_nxp 0);
      [vm_compute; discriminate | reflexivity].
Defined.

(** With the identity read unsupported the PCA9846 attaches: the reset
    line is pulsed, the register written once and four adapters built. *)
Example scenario_identity_unsupported :
  let r := pca954x_probe id_none id_nxp enodev enomem einval eopnotsupp bus_ack
             (pca9846_platform (- eopnotsupp) (nxp_identity id_nxp 0)) [] in
  r.1 = 0 /\ map chan_id (adapter r.2) = [0; 1; 2; 3]
  /\ bus r.2 = [write_byte 0] /\ deselect (priv r.2) = 0xF
  /\ reset_pulsed r.2 = true.
Proof. vm_compute. repeat split. Qed.

Lemma resume_reinitialises_witness :
  bus (pca954x_resume bus_ack sw4).2 = [write_byte 0]
  /\ last_chan (priv (pca954x_resume bus_ack sw4).2) = 0
  /\ adapter (pca954x_resume bus_ack sw4).2 = adapter sw4
  /\ irq (priv (pca954x_resume bus_ack sw4).2) = irq (priv sw4)
  /\ last_chan (priv (probe_attach id_none id_nxp enodev einval bus_ack
                        pca9548_platform sw4).2) = 0.
Proof.
  pose proof (resume_reinitialises id_none id_nxp enodev einval bus_ack sw4)
    as (Hb & _ & Hl & Ha & Hi & _ & _ & _ & _ & _ & Hp).
  repeat (split; [assumption |]).
  destruct (Hp pca9548_platform) as [_ Hq]. rewrite Hq; [exact Hl |].
  vm_compute. discriminate.
Defined.

Lemma probe_adapter_bound_witness :
  (length (adapter (pca954x_probe id_none id_nxp enodev enomem einval eopnotsupp
                      bus_ack pca9548_platform []).2) <= 3)%nat.
Proof.
  pose proof (probe_adapter_bound id_none id_nxp enodev enomem einval eopnotsupp
                bus_ack) as [_ H].
  destruct (H pca9548_platform []) as (_ & _ & Hm).
  apply (Hm _ eq_refl).
Defined.

(** *** Instances of the further properties *)

Lemma select_regval_injective_witness : (5 : Z) = 5.
Proof.
  apply (select_regval_injective id_none id_nxp pca_9547 5 5);
    [cbn; lia | cbn; lia | reflexivity].
Defined.

Lemma select_regval_bits_witness :
  Z.testbit (pca954x_regval (chips id_none id_nxp pca_9545) 2) 1 = false
  /\ Z.land (pca954x_regval (chips id_none id_nxp pca_9547) 5) 7 = 5.
Proof.
  split.
  - exact (select_regval_bits id_none id_nxp pca_9545 2 ltac:(cbn; lia) 1 ltac:(lia)).
  - apply (select_regval_bits id_none id_nxp pca_9547 5). cbn. lia.
Defined.

Lemma irq_set_type_sense_only_witness :
  pca954x_irq_set_type einval 0xf 8 (Z.lor 8 0x10) = pca954x_irq_set_type einval 0xf 8 8
  /\ (pca954x_irq_set_type einval 0xf 8 8 = 0
      \/ pca954x_irq_set_type einval 0xf 8 8 = - einval).
Proof.
  apply (irq_set_type_sense_only einval 0xf 8 8 0x10). reflexivity.
Defined.

Lemma irq_handler_byte_status_witness :
  bus (pca954x_irq_handler id_none id_nxp bus_ack sw4).2 = [read_byte]
  /\ nested (pca954x_irq_handler id_none id_nxp bus_ack sw4).2 = [64; 66; 67].
Proof.
  pose proof (irq_handler_byte_status id_none id_nxp bus_ack sw4)
    as (_ & _ & Hb & Hn & _); [cbn; lia |].
  split; [exact Hb | exact Hn].
Defined.

Lemma run_calls_coherent_witness :
  0 <= last_chan (priv (run_calls id_none id_nxp bus_ack
                          [call_select 2; call_irq; call_deselect 5; call_irq]
                          (pca954x_resume bus_ack sw4).2)) < 256
  /\ last_chan_coherent bus_ack
       (run_calls id_none id_nxp bus_ack
          [call_select 2; call_irq; call_deselect 5; call_irq]
          (pca954x_resume bus_ack sw4).2).
Proof.
  apply (run_calls_coherent id_none id_nxp bus_ack);
    [cbn; lia | left; reflexivity].
Defined.

(** The sequence of the instance above leaves channel 2 selected: the
    deselect of channel 5 is not marked, and the status reads do not
    count as writes. *)
Example scenario_call_sequence :
  let m := run_calls id_none id_nxp bus_ack
             [call_select 2; call_irq; call_deselect 5; call_irq]
             (pca954x_resume bus_ack sw4).2 in
  last_chan (priv m) = 4
  /\ bus m = [write_byte 0; xfer_write 4; read_byte; read_byte].
Proof. vm_compute. split; reflexivity. Qed.

Lemma irq_setup_maps_channels_witness :
  exists dm : gmap Z Z,
    (pca954x_irq_setup id_none id_nxp enodev einval pca9545_platform
       (probe_alloc pca9545_platform [])).2 =
      set_irq (Some dm) (probe_alloc pca9545_platform [])
    /\ forall j : Z,
         (0 <= j < 4 ->
            dm !! j = Some (64 + j) /\ 64 + j <> 0
            /\ irq_linear_revmap (Some dm) j = 64 + j)
         /\ (~ 0 <= j < 4 -> dm !! j = None).
Proof.
  exact (irq_setup_maps_channels id_none id_nxp enodev einval pca9545_platform
           (probe_alloc pca9545_platform [])
           ltac:(discriminate) ltac:(discriminate) eq_refl).
Defined.

Lemma probe_success_channels_witness :
  bus (pca954x_probe id_none id_nxp enodev enomem einval eopnotsupp bus_ack
         pca9548_platform []).2 = [write_byte 0]
  /\ map chan_id
       (adapter (pca954x_probe id_none id_nxp enodev enomem einval eopnotsupp
                   bus_ack pca9548_platform []).2) = [0; 1; 2].
Proof.
  pose proof (probe_success_channels id_none id_nxp enodev enomem einval
                eopnotsupp bus_ack pca9548_platform []
                (pca954x_probe id_none id_nxp enodev enomem einval eopnotsupp
                   bus_ack pca9548_platform []).2
                ltac:(discriminate) ltac:(discriminate) ltac:(discriminate)
                ltac:(intros err H; discriminate H) ltac:(vm_compute; reflexivity))
    as (_ & Hb & _ & _ & _ & Hc & _).
  split; [exact Hb | exact Hc].
Defined.

Lemma probe_success_idle_disconnect_witness :
  Z.testbit
    (deselect (priv (pca954x_probe id_none id_nxp enodev enomem einval
                       eopnotsupp bus_ack pca9548_platform []).2)) 1 = false
  /\ pca954x_deselect_mux bus_ack
       (pca954x_probe id_none id_nxp enodev enomem einval eopnotsupp bus_ack
          pca9548_platform []).2 1 =
     (0, (pca954x_probe id_none id_nxp enodev enomem einval eopnotsupp bus_ack
            pca9548_platform []).2).
Proof.
  exact (probe_success_idle_disconnect id_none id_nxp enodev enomem einval
           eopnotsupp bus_ack pca9548_platform []
           (pca954x_probe id_none id_nxp enodev enomem einval eopnotsupp
              bus_ack pca9548_platform []).2 1
           ltac:(discriminate) ltac:(discriminate) ltac:(discriminate)
           ltac:(intros err H; discriminate H) ltac:(vm_compute; reflexivity) ltac:(lia)).
Defined.

Lemma probe_success_interrupts_witness :
  irq_requested (pca954x_probe id_none id_nxp enodev enomem einval eopnotsupp
                   bus_ack pca9545_platform []).2 = true
  /\ nested (pca954x_irq_handler id_none id_nxp bus_ack
              (pca954x_probe id_none id_nxp enodev enomem einval eopnotsupp
                 bus_ack pca9545_platform []).2).2 = [64; 66; 67].
Proof.
  pose proof (probe_success_interrupts id_none id_nxp enodev enomem einval
                eopnotsupp bus_ack pca9545_platform []
                (pca954x_probe id_none id_nxp enodev enomem einval eopnotsupp
                   bus_ack pca9545_platform []).2
                ltac:(discriminate) ltac:(discriminate) ltac:(discriminate)
                ltac:(intros err H; discriminate H) ltac:(vm_compute; reflexivity)) as H.
  change (has_irq (chips id_none id_nxp (probe_chip pca9545_platform)) =? 0) with false in H.
  change (client_irq pca9545_platform <=? 0) with false in H.
  cbn [orb] in H. destruct H as (Hr & _ & _ & Hn).
  split; [exact Hr |].
  etransitivity; [apply Hn; vm_compute; discriminate |].
  vm_compute. reflexivity.
Defined.


(** The failing PCA9545 probe returns the error of the second
    [i2c_mux_add_adapter] call; the adapter of channel 0 and the four irq
    mappings it had built are gone. *)
Example scenario_failed_probe :
  let r := pca954x_probe id_none id_nxp enodev enomem einval eopnotsupp bus_ack
             pca9545_failing_platform [] in
  r.1 = -16 /\ adapter r.2 = [] /\ irq (priv r.2) = None
  /\ bus r.2 = [write_byte 0].
Proof. vm_compute. repeat split. Qed.

Lemma probe_identity_read_error_witness :
  ((pca954x_probe id_none id_nxp enodev enomem einval eopnotsupp bus_ack
      (pca9846_platform (-5) (nxp_identity id_nxp 0)) []).1 = -5
   /\ bus (pca954x_probe id_none id_nxp enodev enomem einval eopnotsupp bus_ack
             (pca9846_platform (-5) (nxp_identity id_nxp 0)) []).2 = []
   /\ adapter (pca954x_probe id_none id_nxp enodev enomem einval eopnotsupp bus_ack
                 (pca9846_platform (-5) (nxp_identity id_nxp 0)) []).2 = [])
  /\ pca954x_probe id_none id_nxp enodev enomem einval eopnotsupp bus_ack
       (pca9846_platform 0 (nxp_identity id_nxp 0x10b)) [] =
     probe_attach id_none id_nxp enodev einval bus_ack
       (pca9846_platform 0 (nxp_identity id_nxp 0x10b))
       (probe_reset gpio_present
          (probe_alloc (pca9846_platform 0 (nxp_identity id_nxp 0x10b)) [])).
Proof.
  split.
  - apply (probe_identity_read_error id_none id_nxp enodev enomem einval
             eopnotsupp bus_ack (pca9846_platform (-5) (nxp_identity id_nxp 0)) []
             eq_refl eq_refl ltac:(discriminate) ltac:(vm_compute; discriminate))
      with (id := nxp_identity id_nxp 0);
      [reflexivity | discriminate | vm_compute; discriminate].
  - apply (probe_identity_read_error id_none id_nxp enodev enomem einval
             eopnotsupp bus_ack (pca9846_platform 0 (nxp_identity id_nxp 0x10b)) []
             eq_refl eq_refl ltac:(discriminate) ltac:(vm_compute; discriminate))
      with (id := nxp_identity id_nxp 0x10b); reflexivity.
Defined.

Lemma dp83867_config_intr_bits_witness :
  Dp83867.mdio
    (Dp83867.dp83867_config_intr phy_interrupt_enabled mdio_ack (phy_fresh 0 0)).2 =
    [Dp83867.phy_write Dp83867.MII_DP83867_MICR 0]
  /\ (Dp83867.dp83867_config_intr phy_interrupt_enabled mdio_nak
        (phy_fresh phy_interrupt_enabled 0)).1 = -5
  /\ exists v : Z,
       Dp83867.mdio
         (Dp83867.dp83867_config_intr phy_interrupt_enabled mdio_ack
            (phy_fresh phy_interrupt_enabled 0)).2 =
         [Dp83867.phy_read Dp83867.MII_DP83867_MICR;
          Dp83867.phy_write Dp83867.MII_DP83867_MICR v]
       /\ Z.land v 0xEC10 = 0xEC10.
Proof.
  pose proof (dp83867_config_intr_bits phy_interrupt_enabled mdio_ack
                (phy_fresh 0 0)) as (Hoff & _ & _).
  pose proof (dp83867_config_intr_bits phy_interrupt_enabled mdio_nak
                (phy_fresh phy_interrupt_enabled 0)) as (_ & Hfail & _).
  pose proof (dp83867_config_intr_bits phy_interrupt_enabled mdio_ack
                (phy_fresh phy_interrupt_enabled 0)) as (_ & _ & Hon).
  split; [apply Hoff; vm_compute; discriminate |].
  split; [apply Hfail; reflexivity |].
  destruct Hon as (v & Hm & _ & Hv & _); [reflexivity | vm_compute; discriminate |].
  exists v. split; [exact Hm | exact Hv].
Defined.

(** The PHY model on the status 0x1234: the write has the six enable bits
    added; enabling port mirroring sets bit 0 and disabling clears it. *)
Example scenario_dp83867 :
  Dp83867.mdio
    (Dp83867.dp83867_config_intr phy_interrupt_enabled mdio_ack
       (phy_fresh phy_interrupt_enabled 0)).2 =
    [Dp83867.phy_read 0x12; Dp83867.phy_write 0x12 0xFE34]
  /\ Dp83867.mdio
       (Dp83867.dp83867_config_port_mirroring mdio_ack (phy_fresh 0 1)).2 =
     [Dp83867.phy_read_mmd 0x1f 0x31; Dp83867.phy_write_mmd 0x1f 0x31 0x1235]
  /\ Dp83867.mdio
       (Dp83867.dp83867_config_port_mirroring mdio_ack (phy_fresh 0 2)).2 =
     [Dp83867.phy_read_mmd 0x1f 0x31; Dp83867.phy_write_mmd 0x1f 0x31 0x1234].
Proof. vm_compute. repeat split. Qed.
